(** * The session guard of the blogging site (Next.js middleware)

    A shallow embedding of [middleware] (the route guard of the frontend) and
    of the values it handles: the request with its cookies and URLs, the
    renewal call to the authentication service, the parsed response body, and
    the response the guard hands back to the router.

    The guard is an [async] function with one [await]ed network call inside a
    [try]/[catch].  It is embedded in a state-and-exception monad [Js]: the
    state is the outside world (the network with the renewal service behind
    it, and the list of effects performed so far), and an abrupt completion
    carries the thrown value to the nearest [try_catch].

    Strings are byte strings, the UTF-8 form of the JavaScript strings.  A
    string parsed from a body may hold an unpaired surrogate, which has no
    UTF-8 form: it is written in the generalised form, as the three bytes
    ED, A0-BF, 80-BF.  Cookie values of a request and the fields of a form
    are well-formed.  The library calls of the guard ([NextResponse.next],
    [NextResponse.redirect], [cookies.set], [URL], [fetch]) are modelled by
    what they hand back to the guard: a response records its disposition and
    the cookies set on it, and [cookies.set] throws what the serialisation of
    the value throws. *)

From Stdlib Require Import ZArith String Ascii List Bool Lia.
From Stdlib Require Import Floats.SpecFloat.
From stdpp Require Import base option gmap strings list.

Local Open Scope string_scope.
Local Open Scope Z_scope.

(** ** JavaScript values *)

(** A value produced by [JSON.parse] (what [response.json()] resolves to).
    Numbers are IEEE doubles; an object is the list of its members in the
    order of the text. *)
#[warnings="-register-all"] Inductive Json : Type :=
| JNull
| JBool (b : bool)
| JNumber (x : spec_float)
| JString (s : string)
| JArray (xs : list Json)
| JObject (members : list (string * Json)).

(** A value that may be [undefined]: [None] is [undefined]. *)
Abbreviation JsValue := (option Json).

(** [ToBoolean], the test behind [if (x)], [!x] and [x || y]. *)
Class ToBoolean (A : Type) := truthy : A -> bool.

#[export] Instance string_ToBoolean : ToBoolean string :=
  fun s => match s with EmptyString => false | String _ _ => true end.

#[export] Instance Json_ToBoolean : ToBoolean Json :=
  fun v =>
    match v with
    | JNull => false
    | JBool b => b
    | JNumber (S754_zero _) => false
    | JNumber S754_nan => false
    | JNumber _ => true
    | JString s => truthy s
    | JArray _ => true
    | JObject _ => true
    end.

#[export] Instance option_ToBoolean {A} `{ToBoolean A} : ToBoolean (option A) :=
  fun o => match o with None => false | Some a => truthy a end.

(** [a || b] where [b] is defined. *)
Definition or_else (a : JsValue) (b : Json) : Json :=
  match a with
  | Some v => if truthy v then v else b
  | None => b
  end.

(** What is thrown inside the guard's [try] block. *)
Inductive Exn : Type :=
| FetchFailed (reason : string)  (* [fetch] rejects: no connection, bad URL *)
| BodyNotJson                    (* [response.json()] rejects *)
| NullProperty (key : string)    (* TypeError: property read on [null] *)
| ErrorOf (message : Json)       (* [throw new Error(message)] *)
| NoPrimitive                    (* TypeError: an object without a text *)
| MalformedURI.                  (* URIError: an unpaired surrogate *)

Inductive Completion (A : Type) : Type :=
| Normal (a : A)
| Throw (e : Exn).
Arguments Normal {A} a.
Arguments Throw {A} e.

(** The member of an object of a given name; in a text that repeats a name
    the last member wins, as in [JSON.parse]. *)
Fixpoint own_property (members : list (string * Json)) (key : string) : JsValue :=
  match members with
  | [] => None
  | (k, v) :: rest =>
      match own_property rest key with
      | Some w => Some w
      | None => if String.eqb k key then Some v else None
      end
  end.

(** [v.key] for a parsed value [v] and a name [key] that no built-in
    prototype defines (the guard reads [detail] and [access_token]): an
    object gives its own member or [undefined], [null] throws, and booleans,
    numbers, strings and arrays give [undefined]. *)
Definition get_property (v : Json) (key : string) : Completion JsValue :=
  match v with
  | JNull => Throw (NullProperty key)
  | JObject members => Normal (own_property members key)
  | JBool _ | JNumber _ | JString _ | JArray _ => Normal None
  end.

(** ** The text of a value and [encodeURIComponent] *)

(** The string holds an unpaired surrogate: the byte ED followed by a byte
    of A0-BF.  (A high surrogate followed by a low one is a code point above
    FFFF, written in four bytes; well-formed UTF-8 has only 80-9F after ED.) *)
Fixpoint lone_surrogate (s : string) : bool :=
  match s with
  | String c (String d _ as rest) =>
      ((N_of_ascii c =? 237)%N && (160 <=? N_of_ascii d)%N && (N_of_ascii d <=? 191)%N)
      || lone_surrogate rest
  | _ => false
  end.

(** [String(v)] throws: an object with a member [toString] of its own (which
    is no function, and hides the inherited one) has no text, and an array
    asks each of its elements but [null] for its text. *)
Fixpoint ToString_throws (v : Json) : bool :=
  match v with
  | JObject members =>
      match own_property members "toString" with Some _ => true | None => false end
  | JArray xs => existsb ToString_throws xs
  | JNull | JBool _ | JNumber _ | JString _ => false
  end.

(** The text [String(v)] holds an unpaired surrogate: the text of an array
    is the texts of its elements with commas between them, the text of an
    object is ["[object Object]"]. *)
Fixpoint text_lone_surrogate (v : Json) : bool :=
  match v with
  | JString s => lone_surrogate s
  | JArray xs => existsb text_lone_surrogate xs
  | JNull | JBool _ | JNumber _ | JObject _ => false
  end.

(** What [encodeURIComponent(v)] throws, if anything: the TypeError of the
    conversion to text, or a URIError on an unpaired surrogate.  The text of
    [undefined] is harmless. *)
Definition encodeURIComponent_throws (v : JsValue) : option Exn :=
  match v with
  | None => None
  | Some j =>
      if ToString_throws j then Some NoPrimitive
      else if text_lone_surrogate j then Some MalformedURI
      else None
  end.

(** ** [JSON.stringify] of an object whose members are strings *)

Definition hex_digit (n : N) : ascii :=
  ascii_of_N (if (n <? 10)%N then 48 + n else 87 + n)%N.

Definition quote : ascii := ascii_of_N 34.
Definition backslash : ascii := ascii_of_N 92.

(** One character of a string literal (QuoteJSONString). *)
Definition JSON_quote_char (c : ascii) : string :=
  let n := N_of_ascii c in
  if (n =? 34)%N then String backslash (String quote EmptyString)
  else if (n =? 92)%N then String backslash (String backslash EmptyString)
  else if (n =? 8)%N then String backslash "b"
  else if (n =? 12)%N then String backslash "f"
  else if (n =? 10)%N then String backslash "n"
  else if (n =? 13)%N then String backslash "r"
  else if (n =? 9)%N then String backslash "t"
  else if (n <? 32)%N then
    String backslash
      (String "u" (String "0" (String "0"
        (String (hex_digit (n / 16)) (String (hex_digit (n mod 16)) EmptyString)))))
  else String c EmptyString.

Fixpoint JSON_escape (s : string) : string :=
  match s with
  | EmptyString => EmptyString
  | String c rest => JSON_quote_char c +:+ JSON_escape rest
  end.

Definition JSON_quote (s : string) : string :=
  String quote (JSON_escape s +:+ String quote EmptyString).

Fixpoint join (sep : string) (parts : list string) : string :=
  match parts with
  | [] => EmptyString
  | [p] => p
  | p :: rest => p +:+ sep +:+ join sep rest
  end.

(** A member [k: v] of the object; a member whose value is [undefined] is
    left out. *)
Definition JSON_member (m : string * option string) : option string :=
  (fun v => JSON_quote m.1 +:+ ":" +:+ JSON_quote v) <$> m.2.

(** [JSON.stringify({ k1: v1, ... })] for values [v1], ... that are strings
    or [undefined]. *)
Definition JSON_stringify (members : list (string * option string)) : string :=
  "{" +:+ join "," (omap JSON_member members) +:+ "}".

(** *** Reading a string literal back

    The service reads the body of the call with a JSON parser.  The reader
    below covers the literals [JSON_quote] writes (and the other short
    escapes); the statements use it to say which credential a body carries. *)

Definition unhex (c : ascii) : option N :=
  let n := N_of_ascii c in
  if (48 <=? n)%N && (n <=? 57)%N then Some (n - 48)%N
  else if (97 <=? n)%N && (n <=? 102)%N then Some (n - 87)%N
  else if (65 <=? n)%N && (n <=? 70)%N then Some (n - 55)%N
  else None.

(** The character at the head of the inside of a literal, and what follows
    it; [None] at the closing quote, at a raw control character and at an
    escape outside the reader's range. *)
Definition JSON_read_char (s : string) : option (ascii * string) :=
  match s with
  | EmptyString => None
  | String c rest =>
      let n := N_of_ascii c in
      if (n =? 92)%N then
        match rest with
        | EmptyString => None
        | String e rest =>
            let k := N_of_ascii e in
            if (k =? 34)%N then Some (quote, rest)
            else if (k =? 92)%N then Some (backslash, rest)
            else if (k =? 47)%N then Some (ascii_of_N 47, rest)
            else if (k =? 98)%N then Some (ascii_of_N 8, rest)
            else if (k =? 102)%N then Some (ascii_of_N 12, rest)
            else if (k =? 110)%N then Some (ascii_of_N 10, rest)
            else if (k =? 114)%N then Some (ascii_of_N 13, rest)
            else if (k =? 116)%N then Some (ascii_of_N 9, rest)
            else if (k =? 117)%N then
              match rest with
              | String a (String b (String h (String l rest))) =>
                  match unhex a, unhex b, unhex h, unhex l with
                  | Some 0%N, Some 0%N, Some x, Some y =>
                      if (x <? 8)%N then Some (ascii_of_N (16 * x + y), rest) else None
                  | _, _, _, _ => None
                  end
              | _ => None
              end
            else None
        end
      else if (n =? 34)%N then None
      else if (n <? 32)%N then None
      else Some (c, rest)
  end.

(** The inside of a literal up to its closing quote, and what follows the
    quote.  Every step consumes input, so the length of the input is fuel
    enough. *)
Fixpoint JSON_read_chars (fuel : nat) (s : string) : option (string * string) :=
  match fuel with
  | O => None
  | S fuel =>
      match s with
      | EmptyString => None
      | String c rest =>
          if (N_of_ascii c =? 34)%N then Some (EmptyString, rest)
          else
            match JSON_read_char s with
            | Some (d, rest') =>
                match JSON_read_chars fuel rest' with
                | Some (t, after) => Some (String d t, after)
                | None => None
                end
            | None => None
            end
      end
  end.

Definition JSON_read_string (s : string) : option (string * string) :=
  match s with
  | EmptyString => None
  | String c rest =>
      if (N_of_ascii c =? 34)%N then JSON_read_chars (String.length s) rest else None
  end.

(** The member of an object text of the shape [{"k":"v"}]. *)
Definition JSON_read_member (text : string) : option (string * string) :=
  match text with
  | String "{" inside =>
      match JSON_read_string inside with
      | Some (k, String ":" after) =>
          match JSON_read_string after with
          | Some (v, String "}" EmptyString) => Some (k, v)
          | _ => None
          end
      | _ => None
      end
  | _ => None
  end.

(** The members of an object text [{"k1":"v1","k2":"v2",...}] whose keys and
    values are string literals, in the order of the text. *)
Fixpoint JSON_read_members (fuel : nat) (text : string) : option (list (string * string)) :=
  match fuel with
  | O => None
  | S fuel =>
      match JSON_read_string text with
      | Some (k, String ":" after) =>
          match JSON_read_string after with
          | Some (v, String "}" EmptyString) => Some [(k, v)]
          | Some (v, String "," more) =>
              match JSON_read_members fuel more with
              | Some members => Some ((k, v) :: members)
              | None => None
              end
          | _ => None
          end
      | _ => None
      end
  end.

Definition JSON_read_object (text : string) : option (list (string * string)) :=
  match text with
  | String "{" (String "}" EmptyString) => Some []
  | String "{" inside => JSON_read_members (String.length text) inside
  | _ => None
  end.

(** ** URLs *)

Record URL : Type := {
  origin : string;                         (* scheme and authority *)
  pathname : string;
  searchParams : list (string * string);   (* decoded pairs, in order *)
  hash : string
}.

(** [new URL(path, base)] for an absolute [path] without query or fragment,
    as ['/auth'] is: the base gives the origin and nothing else. *)
Definition new_URL (path : string) (base : URL) : URL :=
  {| origin := origin base; pathname := path; searchParams := []; hash := EmptyString |}.

(** [URLSearchParams.set]: the first pair of that name takes the value and
    the later ones go; without one the pair is appended. *)
Fixpoint params_set (ps : list (string * string)) (name value : string)
  : list (string * string) :=
  match ps with
  | [] => [(name, value)]
  | (k, v) :: rest =>
      if String.eqb k name
      then (name, value) :: List.filter (fun p => negb (String.eqb (fst p) name)) rest
      else (k, v) :: params_set rest name value
  end.

(** [URLSearchParams.get]: the first value of that name. *)
Fixpoint params_get (ps : list (string * string)) (name : string) : option string :=
  match ps with
  | [] => None
  | (k, v) :: rest => if String.eqb k name then Some v else params_get rest name
  end.

Definition searchParams_set (u : URL) (name value : string) : URL :=
  {| origin := origin u; pathname := pathname u;
     searchParams := params_set (searchParams u) name value; hash := hash u |}.

(** ** Requests and responses of the router *)

Record RequestCookie : Type := { rc_name : string; rc_value : string }.

Record NextRequest : Type := {
  url : URL;                        (* [request.url], parsed *)
  nextUrl : URL;                    (* [request.nextUrl] *)
  req_cookies : gmap string string  (* [request.cookies], by name *)
}.

(** [request.cookies.get(name)] *)
Definition req_cookies_get (request : NextRequest) (name : string) : option RequestCookie :=
  (fun v => {| rc_name := name; rc_value := v |}) <$> req_cookies request !! name.

Inductive SameSite : Type := Strict | Lax | NoneSite.

(** A cookie of the response: its value and the attributes of the options
    object; an attribute left out is [None]. *)
Record ResponseCookie : Type := {
  value : JsValue;
  path : option string;
  domain : option string;
  secure : option bool;
  httpOnly : option bool;
  sameSite : option SameSite;
  maxAge : option Z
}.

Inductive Disposition : Type :=
| PassThrough                                 (* [NextResponse.next()] *)
| RedirectTo (location : URL) (status : Z).   (* [NextResponse.redirect(url)] *)

Record NextResponse : Type := {
  disposition : Disposition;
  res_cookies : gmap string ResponseCookie   (* cookies set on the response *)
}.

Definition NextResponse_next : NextResponse :=
  {| disposition := PassThrough; res_cookies := ∅ |}.

Definition NextResponse_redirect (u : URL) : NextResponse :=
  {| disposition := RedirectTo u 307; res_cookies := ∅ |}.

(** [response.cookies.set(name, value, options)]: the cookie is serialised on
    the spot, its value through [encodeURIComponent(value ?? '')]. *)
Definition res_cookies_set (response : NextResponse) (name : string) (c : ResponseCookie)
  : Completion NextResponse :=
  match encodeURIComponent_throws (value c) with
  | Some e => Throw e
  | None =>
      Normal {| disposition := disposition response;
                res_cookies := <[name := c]> (res_cookies response) |}
  end.

(** ** The renewal call *)

Record FetchRequest : Type := {
  fetch_url : string;
  method : string;
  headers : list (string * string);
  body : string
}.

(** A response of the service: its status, and what [json()] makes of its
    body ([None]: the body is not JSON and [json()] rejects). *)
Record Response : Type := {
  status : Z;
  json_result : option Json
}.

Definition ok (r : Response) : bool := (200 <=? status r) && (status r <=? 299).

Inductive FetchOutcome : Type :=
| Resolves (r : Response)
| Rejects (reason : string).

Inductive Event : Type :=
| Fetched (rq : FetchRequest)
| ConsoleError (label : string) (e : Exn).

Fixpoint fetch_calls (t : list Event) : list FetchRequest :=
  match t with
  | [] => []
  | Fetched rq :: rest => rq :: fetch_calls rest
  | ConsoleError _ _ :: rest => fetch_calls rest
  end.

(** [`${x}`] for an environment variable: an unset one reads ["undefined"]. *)
Definition template (x : option string) : string := default "undefined" x.

Section Guard.

(** The outside world: the state of the network and of the service behind
    it, what a call does to it, and the environment of the process. *)
Context {Net : Type}.
Variable transport : FetchRequest -> Net -> FetchOutcome * Net.
Variable env : gmap string string.

Record World : Type := { net : Net; trace : list Event }.

Definition Js (A : Type) : Type := World -> Completion A * World.

#[local] Instance Js_ret : MRet Js := fun A a w => (Normal a, w).

#[local] Instance Js_bind : MBind Js := fun A B k m w =>
  match m w with
  | (Normal a, w') => k a w'
  | (Throw e, w') => (Throw e, w')
  end.

Definition throw {A} (e : Exn) : Js A := fun w => (Throw e, w).

Definition try_catch {A} (block : Js A) (handler : Exn -> Js A) : Js A := fun w =>
  match block w with
  | (Normal a, w') => (Normal a, w')
  | (Throw e, w') => handler e w'
  end.

Definition lift {A} (c : Completion A) : Js A := fun w => (c, w).

Definition emit (ev : Event) (w : World) : World :=
  {| net := net w; trace := trace w ++ [ev] |}.

(** [await fetch(url, init)] *)
Definition fetch (rq : FetchRequest) : Js Response := fun w =>
  let '(outcome, n) := transport rq (net w) in
  let w' := emit (Fetched rq) {| net := n; trace := trace w |} in
  match outcome with
  | Resolves r => (Normal r, w')
  | Rejects reason => (Throw (FetchFailed reason), w')
  end.

(** [await response.json()] *)
Definition json (r : Response) : Js Json :=
  match json_result r with
  | Some data => mret data
  | None => throw BodyNotJson
  end.

Definition console_error (label : string) (e : Exn) : Js unit := fun w =>
  (Normal tt, emit (ConsoleError label e) w).

(** The request of line 16: the renewal endpoint, the method, the header
    and the body carrying the long-lived credential. *)
Definition renewal_request (refreshToken : option string) : FetchRequest :=
  {| fetch_url := template (env !! "NEXT_PUBLIC_API_URL") +:+ "/auth/refresh";
     method := "POST";
     headers := [("Content-Type", "application/json")];
     body := JSON_stringify [("refresh_token", refreshToken)] |}.

(** The options object of line 30. *)
Definition access_cookie (v : JsValue) : ResponseCookie :=
  {| value := v; path := Some "/"; domain := None; secure := Some true;
     httpOnly := None; sameSite := Some Strict; maxAge := None |}.

Definition middleware (request : NextRequest) : Js NextResponse :=
  let pathname := pathname (nextUrl request) in
  (* Get tokens from cookies *)
  let accessToken := rc_value <$> req_cookies_get request "access_token" in
  let refreshToken := rc_value <$> req_cookies_get request "refresh_token" in
  if negb (truthy accessToken) then
    (* If no access token, try to refresh it *)
    if truthy refreshToken then
      try_catch
        (response ← fetch (renewal_request refreshToken);
         data ← json response;
         _ ← (if negb (ok response)
              then detail ← lift (get_property data "detail");
                   throw (ErrorOf (or_else detail (JString "Failed to refresh token")))
              else mret tt);
         newAccessToken ← lift (get_property data "access_token");
         let responseWithToken := NextResponse_next in
         responseWithToken ←
           lift (res_cookies_set responseWithToken "access_token"
                   (access_cookie newAccessToken));
         mret responseWithToken)
        (fun error =>
           _ ← console_error "Token refresh failed:" error;
           (* If refresh fails, redirect to login *)
           let loginUrl := new_URL "/auth" (url request) in
           let loginUrl := searchParams_set loginUrl "next" pathname in
           mret (NextResponse_redirect loginUrl))
    else
      (* If no tokens, redirect to login *)
      let loginUrl := new_URL "/auth" (url request) in
      let loginUrl := searchParams_set loginUrl "next" pathname in
      mret (NextResponse_redirect loginUrl)
  else
    (* If access token exists, let the request proceed *)
    mret NextResponse_next.

(** One interception: the guard run from a given state of the network, with
    the effects of this run alone in the trace. *)
Definition invoke (request : NextRequest) (n : Net) : Completion NextResponse * World :=
  middleware request {| net := n; trace := [] |}.

End Guard.

(** ** Vocabulary of the statements *)

(** The two credentials as the guard reads them (lines 9 and 10). *)
Definition accessToken_of (request : NextRequest) : option string :=
  rc_value <$> req_cookies_get request "access_token".
Definition refreshToken_of (request : NextRequest) : option string :=
  rc_value <$> req_cookies_get request "refresh_token".

(** A credential is present for the guard when its test [if (token)] passes,
    and absent otherwise. *)
Definition present (token : option string) : Prop := truthy token = true.
Definition absent (token : option string) : Prop := truthy token = false.

(** The login URL of lines 36-37 and 42-43. *)
Definition loginUrl_of (request : NextRequest) : URL :=
  searchParams_set (new_URL "/auth" (url request)) "next" (pathname (nextUrl request)).

(** The same request carrying one more cookie, or neither credential. *)
Definition with_cookie (request : NextRequest) (name v : string) : NextRequest :=
  {| url := url request; nextUrl := nextUrl request;
     req_cookies := <[name := v]> (req_cookies request) |}.

Definition without_cookie (request : NextRequest) (name : string) : NextRequest :=
  {| url := url request; nextUrl := nextUrl request;
     req_cookies := delete name (req_cookies request) |}.

Definition without_credentials (request : NextRequest) : NextRequest :=
  without_cookie (without_cookie request "access_token") "refresh_token".

(** The ways a renewal call fails: the service answers with a status outside
    200-299, [fetch] throws, or the body is not JSON and [json()] throws. *)
Inductive renewal_fails : FetchOutcome -> Prop :=
| fails_status r : ok r = false -> renewal_fails (Resolves r)
| fails_fetch reason : renewal_fails (Rejects reason)
| fails_body r : json_result r = None -> renewal_fails (Resolves r).

(** The renewal succeeds with the value [v]: the service answers with a
    status in 200-299 and a JSON body, [data.access_token] reads [v] without
    throwing, and [v] can be written as a cookie value. *)
Definition renewal_succeeds (outcome : FetchOutcome) (v : JsValue) : Prop :=
  exists r data,
    outcome = Resolves r /\ ok r = true /\ json_result r = Some data
    /\ get_property data "access_token" = Normal v
    /\ encodeURIComponent_throws v = None.

(** A parsed body has a key when it is an object with a member of that name. *)
Definition has_key (data : Json) (key : string) : Prop :=
  exists members v, data = JObject members /\ own_property members key = Some v.

(** What the [try] block makes of the outcome of the call: the value read
    from [data.access_token] and set as the cookie, or the value thrown on
    the way. *)
Inductive Renewal : Type :=
| Renewed (newAccessToken : JsValue)
| Failed (error : Exn).

Definition renewal_of (outcome : FetchOutcome) : Renewal :=
  match outcome with
  | Rejects reason => Failed (FetchFailed reason)
  | Resolves r =>
      match json_result r with
      | None => Failed BodyNotJson
      | Some data =>
          if ok r then
            match get_property data "access_token" with
            | Normal v =>
                match encodeURIComponent_throws v with
                | None => Renewed v
                | Some e => Failed e
                end
            | Throw e => Failed e
            end
          else
            match get_property data "detail" with
            | Normal d => Failed (ErrorOf (or_else d (JString "Failed to refresh token")))
            | Throw e => Failed e
            end
      end
  end.

(** ** Three general statements, refuted further down *)

(** The outputs of the guard would be settled by the request cookies, the
    requested path and the outcome of the renewal call alone. *)
Definition settled_by_cookies_path_outcome : Prop :=
  forall (Net : Type) (transport : FetchRequest -> Net -> FetchOutcome * Net)
         (env : gmap string string) (request1 request2 : NextRequest) (n1 n2 : Net),
    req_cookies request1 = req_cookies request2 ->
    pathname (nextUrl request1) = pathname (nextUrl request2) ->
    (transport (renewal_request env (refreshToken_of request1)) n1).1
      = (transport (renewal_request env (refreshToken_of request2)) n2).1 ->
    (invoke transport env request1 n1).1 = (invoke transport env request2 n2).1.

(** Every answer with a success status and the body [{"access_token": T}]
    would be passed through with the cookie [access_token = T]. *)
Definition success_always_sets_the_cookie : Prop :=
  forall (Net : Type) (transport : FetchRequest -> Net -> FetchOutcome * Net)
         (env : gmap string string) (request : NextRequest) (n : Net)
         (r : Response) (T : string),
    absent (accessToken_of request) ->
    present (refreshToken_of request) ->
    (transport (renewal_request env (refreshToken_of request)) n).1 = Resolves r ->
    ok r = true ->
    json_result r = Some (JObject [("access_token", JString T)]) ->
    (invoke transport env request n).1
      = Normal {| disposition := PassThrough;
                  res_cookies := {[ "access_token" := access_cookie (Some (JString T)) ]} |}.

(** Every successful answer whose body lacks the [access_token] key would
    be passed through with an [undefined] cookie. *)
Definition success_without_key_passes_through : Prop :=
  forall (Net : Type) (transport : FetchRequest -> Net -> FetchOutcome * Net)
         (env : gmap string string) (request : NextRequest) (n : Net)
         (r : Response) (data : Json),
    absent (accessToken_of request) ->
    present (refreshToken_of request) ->
    (transport (renewal_request env (refreshToken_of request)) n).1 = Resolves r ->
    ok r = true ->
    json_result r = Some data ->
    ~ has_key data "access_token" ->
    (invoke transport env request n).1
      = Normal {| disposition := PassThrough;
                  res_cookies := {[ "access_token" := access_cookie None ]} |}.

(** ** Sample worlds and requests *)

(** A service without state that gives every call the same outcome, and one
    that also counts the calls it has served. *)
Definition constant_service (o : FetchOutcome) : FetchRequest -> unit -> FetchOutcome * unit :=
  fun _ _ => (o, tt).

Definition counting_service (o : FetchOutcome) : FetchRequest -> nat -> FetchOutcome * nat :=
  fun _ served => (o, S served).

Definition sample_env : gmap string string :=
  {[ "NEXT_PUBLIC_API_URL" := "https://api.example.com" ]}.

Definition sample_url (site : string) : URL :=
  {| origin := site; pathname := "/account/settings"; searchParams := [("tab", "profile")];
     hash := EmptyString |}.

Definition sample_request (site : string) (jar : gmap string string) : NextRequest :=
  {| url := sample_url site; nextUrl := sample_url site; req_cookies := jar |}.

Definition token_body (T : string) : Json := JObject [("access_token", JString T)].

Definition reply (code : Z) (data : Json) : FetchOutcome :=
  Resolves {| status := code; json_result := Some data |}.

Definition blog : string := "https://blog.example.com".

(** The string of the one code unit D800, a high surrogate without its low
    one (the JSON text ["\ud800"]). *)
Definition lone_D800 : string :=
  String (ascii_of_N 237) (String (ascii_of_N 160) (String (ascii_of_N 128) EmptyString)).

(** Requests with only the long-lived credential, with none, with only the
    short-lived one, and with empty cookies. *)
Definition request_to_renew : NextRequest :=
  sample_request blog {[ "refresh_token" := "R1" ]}.
Definition request_bare : NextRequest := sample_request blog ∅.
Definition request_signed_in : NextRequest :=
  sample_request blog {[ "access_token" := "A1" ]}.
Definition request_empty_access : NextRequest :=
  sample_request blog (<[ "access_token" := EmptyString ]> {[ "refresh_token" := "R1" ]}).
Definition request_empty_both : NextRequest :=
  sample_request blog
    (<[ "access_token" := EmptyString ]> {[ "refresh_token" := EmptyString ]}).

(** ** The pages: handlers that run in the browser

    A handler of a page reads the state variables of the render it belongs
    to (its argument) and acts on the page: it sets state variables, calls
    the service, writes cookies, navigates, starts timers.  The text of
    [err.message] is the argument of [new Error] when that is a string and
    the reason of a rejected [fetch]; for the other thrown values it is the
    engine's, taken as a parameter.  The first statement of the form
    handlers, [e.preventDefault()], acts on the event alone and is left out;
    the cookie and router calls are recorded as they are made. *)

(** A cookie written with [Cookies.set] (js-cookie): the value and the
    attributes object. *)
Record JarCookie : Type := {
  jar_value : JsValue;
  jar_expires : option Z;        (* days *)
  jar_secure : option bool;
  jar_sameSite : option SameSite
}.

Inductive BrowserEvent : Type :=
| CookiesSet (name : string) (c : JarCookie)
| CookiesRemove (name : string)
| RouterPush (href : string)
| PushAfter (ms : Z) (href : string).   (* [setTimeout(() => router.push(href), ms)] *)

Section Pages.

Context {Net : Type} {St : Type}.

(** The page while a handler runs: its state variables, the network with
    the effects on it, and what was asked of the browser, in order. *)
Record Client : Type := {
  page : St;
  world : @World Net;
  browser : list BrowserEvent
}.

Definition Page (A : Type) : Type := Client -> Completion A * Client.

Definition Page_ret : MRet Page := fun A a c => (Normal a, c).

Definition Page_bind : MBind Page := fun A B k m c =>
  match m c with
  | (Normal a, c') => k a c'
  | (Throw e, c') => (Throw e, c')
  end.

Definition page_throw {A} (e : Exn) : Page A := fun c => (Throw e, c).

Definition page_try_catch {A} (block : Page A) (handler : Exn -> Page A) : Page A := fun c =>
  match block c with
  | (Normal a, c') => (Normal a, c')
  | (Throw e, c') => handler e c'
  end.

Definition page_lift {A} (r : Completion A) : Page A := fun c => (r, c).

(** An awaited call of the network. *)
Definition await {A} (m : @Js Net A) : Page A := fun c =>
  let '(r, w) := m (world c) in
  (r, {| page := page c; world := w; browser := browser c |}).

(** A state setter called with a value. *)
Definition set_state (f : St -> St) : Page unit := fun c =>
  (Normal tt, {| page := f (page c); world := world c; browser := browser c |}).

Definition ask_browser (ev : BrowserEvent) : Page unit := fun c =>
  (Normal tt, {| page := page c; world := world c; browser := browser c ++ [ev] |}).

(** A handler started on a page in state [s], the network in state [n]. *)
Definition run_handler {A} (h : Page A) (s : St) (n : Net) : Completion A * Client :=
  h {| page := s; world := {| net := n; trace := [] |}; browser := [] |}.

End Pages.

#[export] Existing Instance Page_ret.
#[export] Existing Instance Page_bind.

(** [Cookies.set(name, value, attributes)] (js-cookie 3): the value is
    written through [encodeURIComponent(value)], which may throw; the cookie
    is recorded once it is written. *)
Definition Cookies_set {Net St : Type} (name : string) (c : JarCookie)
  : @Page Net St unit :=
  match encodeURIComponent_throws (jar_value c) with
  | Some e => page_throw e
  | None => ask_browser (CookiesSet name c)
  end.

(** [if (!response.ok) throw new Error(data.detail || fallback)] *)
Definition throw_unless_ok {Net St : Type} (response : Response) (data : Json)
    (fallback : string) : @Page Net St unit :=
  if negb (ok response)
  then detail ← page_lift (get_property data "detail");
       page_throw (ErrorOf (or_else detail (JString fallback)))
  else mret tt.

(** [err.message] *)
Definition error_message (engine_message : Exn -> string) (err : Exn) : string :=
  match err with
  | ErrorOf (JString text) => text
  | FetchFailed reason => reason
  | _ => engine_message err
  end.

(** A POST of a JSON object to a path of the service. *)
Definition post_json (env : gmap string string) (route : string)
    (members : list (string * option string)) : FetchRequest :=
  {| fetch_url := template (env !! "NEXT_PUBLIC_API_URL") +:+ route;
     method := "POST";
     headers := [("Content-Type", "application/json")];
     body := JSON_stringify members |}.

(** *** The sign-in page *)

Module AuthPage.

Record State : Type := {
  isLogin : bool;
  email : string;
  password : string;
  username : string;
  firstName : string;
  lastName : string;
  error : option string;     (* [null] is [None] *)
  message : JsValue;         (* [null] and [undefined] are [None] *)
  forgotPassword : bool
}.

Definition initial : State :=
  {| isLogin := true; email := EmptyString; password := EmptyString;
     username := EmptyString; firstName := EmptyString; lastName := EmptyString;
     error := None; message := None; forgotPassword := false |}.

Definition setError (v : option string) (s : State) : State :=
  {| isLogin := isLogin s; email := email s; password := password s;
     username := username s; firstName := firstName s; lastName := lastName s;
     error := v; message := message s; forgotPassword := forgotPassword s |}.

Definition setMessage (v : JsValue) (s : State) : State :=
  {| isLogin := isLogin s; email := email s; password := password s;
     username := username s; firstName := firstName s; lastName := lastName s;
     error := error s; message := v; forgotPassword := forgotPassword s |}.

Definition setIsLogin (v : bool) (s : State) : State :=
  {| isLogin := v; email := email s; password := password s;
     username := username s; firstName := firstName s; lastName := lastName s;
     error := error s; message := message s; forgotPassword := forgotPassword s |}.

Section Handlers.

Context {Net : Type}.
Variable transport : FetchRequest -> Net -> FetchOutcome * Net.
Variable env : gmap string string.
Variable engine_message : Exn -> string.

Definition login_cookie (v : JsValue) (days : Z) : JarCookie :=
  {| jar_value := v; jar_expires := Some days; jar_secure := Some true;
     jar_sameSite := Some Strict |}.

Definition handleLogin (s : State) : @Page Net State unit :=
  _ ← set_state (setError None);
  _ ← set_state (setMessage None);
  page_try_catch
    (response ← await (fetch transport
                         (post_json env "/auth/login"
                            [("email", Some (email s)); ("password", Some (password s))]));
     data ← await (json response);
     _ ← throw_unless_ok response data "Login failed";
     access_token ← page_lift (get_property data "access_token");
     _ ← Cookies_set "access_token" (login_cookie access_token 1);
     refresh_token ← page_lift (get_property data "refresh_token");
     _ ← Cookies_set "refresh_token" (login_cookie refresh_token 7);
     ask_browser (RouterPush "/"))
    (fun err => set_state (setError (Some (error_message engine_message err)))).

Definition handleRegister (s : State) : @Page Net State unit :=
  _ ← set_state (setError None);
  _ ← set_state (setMessage None);
  page_try_catch
    (response ← await (fetch transport
                         (post_json env "/auth/register"
                            [("email", Some (email s)); ("password", Some (password s));
                             ("username", Some (username s));
                             ("first_name", Some (firstName s));
                             ("last_name", Some (lastName s))]));
     data ← await (json response);
     _ ← throw_unless_ok response data "Registration failed";
     text ← page_lift (get_property data "message");
     _ ← set_state
           (setMessage
              (Some (or_else text
                       (JString "Registration successful. Please check your email to verify your account."))));
     set_state (setIsLogin true))
    (fun err => set_state (setError (Some (error_message engine_message err)))).

Definition handleForgotPassword (s : State) : @Page Net State unit :=
  _ ← set_state (setError None);
  _ ← set_state (setMessage None);
  page_try_catch
    (response ← await (fetch transport
                         (post_json env "/auth/forgot-password" [("email", Some (email s))]));
     data ← await (json response);
     _ ← throw_unless_ok response data "Failed to send password reset email.";
     text ← page_lift (get_property data "message");
     set_state (setMessage text))
    (fun err => set_state (setError (Some (error_message engine_message err)))).

End Handlers.

End AuthPage.

(** *** The page that sets a new password *)

Module ResetPasswordPage.

Record State : Type := {
  accessToken : option string;    (* [null] is [None] *)
  refreshToken : option string;
  password : string;
  confirmPassword : string;
  error : option string;
  message : JsValue;
  isVerifying : bool
}.

Definition initial : State :=
  {| accessToken := None; refreshToken := None; password := EmptyString;
     confirmPassword := EmptyString; error := None; message := None;
     isVerifying := true |}.

Definition setAccessToken (v : option string) (s : State) : State :=
  {| accessToken := v; refreshToken := refreshToken s; password := password s;
     confirmPassword := confirmPassword s; error := error s; message := message s;
     isVerifying := isVerifying s |}.

Definition setRefreshToken (v : option string) (s : State) : State :=
  {| accessToken := accessToken s; refreshToken := v; password := password s;
     confirmPassword := confirmPassword s; error := error s; message := message s;
     isVerifying := isVerifying s |}.

Definition setError (v : option string) (s : State) : State :=
  {| accessToken := accessToken s; refreshToken := refreshToken s; password := password s;
     confirmPassword := confirmPassword s; error := v; message := message s;
     isVerifying := isVerifying s |}.

Definition setMessage (v : JsValue) (s : State) : State :=
  {| accessToken := accessToken s; refreshToken := refreshToken s; password := password s;
     confirmPassword := confirmPassword s; error := error s; message := v;
     isVerifying := isVerifying s |}.

Definition setIsVerifying (v : bool) (s : State) : State :=
  {| accessToken := accessToken s; refreshToken := refreshToken s; password := password s;
     confirmPassword := confirmPassword s; error := error s; message := message s;
     isVerifying := v |}.

(** The two fields of the form, typed into. *)
Definition setPassword (v : string) (s : State) : State :=
  {| accessToken := accessToken s; refreshToken := refreshToken s; password := v;
     confirmPassword := confirmPassword s; error := error s; message := message s;
     isVerifying := isVerifying s |}.

Definition setConfirmPassword (v : string) (s : State) : State :=
  {| accessToken := accessToken s; refreshToken := refreshToken s; password := password s;
     confirmPassword := v; error := error s; message := message s;
     isVerifying := isVerifying s |}.

(** [text.replace(/\+/g, ' ')] *)
Fixpoint plus_to_space (text : string) : string :=
  match text with
  | EmptyString => EmptyString
  | String c rest =>
      String (if Ascii.eqb c "+" then " "%char else c) (plus_to_space rest)
  end.

(** [text.substring(1)] *)
Definition substring_1 (text : string) : string :=
  match text with
  | EmptyString => EmptyString
  | String _ rest => rest
  end.

(** The page shows its form when [!isVerifying && !error && !message]. *)
Definition shows_form (s : State) : bool :=
  negb (isVerifying s) && negb (truthy (error s)) && negb (truthy (message s)).

Section Handlers.

Context {Net : Type}.
Variable transport : FetchRequest -> Net -> FetchOutcome * Net.
Variable env : gmap string string.
Variable engine_message : Exn -> string.

(** [new URLSearchParams(text)], the parser of the browser: the pairs of the
    text, decoded, in order. *)
Variable URLSearchParams : string -> list (string * string).

(** The effect run once when the page is mounted, on [window.location.hash]. *)
Definition verify_link (hash : string) (s : State) : State :=
  let hash := substring_1 hash in
  let params := URLSearchParams hash in
  let accessTokenFromUrl := params_get params "access_token" in
  let refreshTokenFromUrl := params_get params "refresh_token" in
  let errorDescription := params_get params "error_description" in
  if truthy errorDescription then
    setIsVerifying false (setError (plus_to_space <$> errorDescription) s)
  else
    setIsVerifying false
      (if truthy accessTokenFromUrl && truthy refreshTokenFromUrl
       then setRefreshToken refreshTokenFromUrl (setAccessToken accessTokenFromUrl s)
       else setError (Some "Invalid or missing reset token information in URL.") s).

(** The two tokens when both pass [if (token)]: the negation of
    [!accessToken || !refreshToken]. *)
Definition tokens_found (s : State) : option (string * string) :=
  match accessToken s, refreshToken s with
  | Some access, Some refresh =>
      if negb (truthy access) || negb (truthy refresh) then None else Some (access, refresh)
  | _, _ => None
  end.

Definition handleResetPassword (s : State) : @Page Net State unit :=
  _ ← set_state (setError None);
  _ ← set_state (setMessage None);
  if negb (String.eqb (password s) (confirmPassword s)) then
    set_state (setError (Some "Passwords do not match."))
  else
    match tokens_found s with
    | None =>
        set_state (setError (Some "No reset token found. Please use the link from your email."))
    | Some (access, refresh) =>
        page_try_catch
          (response ← await (fetch transport
                               (post_json env "/auth/reset-password"
                                  [("access_token", Some access);
                                   ("refresh_token", Some refresh);
                                   ("new_password", Some (password s))]));
           data ← await (json response);
           _ ← throw_unless_ok response data "Failed to reset password.";
           text ← page_lift (get_property data "message");
           _ ← set_state
                 (setMessage
                    (Some (or_else text
                             (JString "Password has been reset successfully. You can now log in with your new password."))));
           ask_browser (PushAfter 3000 "/auth"))
          (fun err => set_state (setError (Some (error_message engine_message err))))
    end.

End Handlers.

End ResetPasswordPage.

(** *** The home page *)

Module HomePage.

Section Handlers.

Context {Net : Type}.
Variable transport : FetchRequest -> Net -> FetchOutcome * Net.
Variable env : gmap string string.

(** The call of line 19: [fetch]'s own method, GET, and no body. *)
Definition user_request (token : string) : FetchRequest :=
  {| fetch_url := template (env !! "NEXT_PUBLIC_API_URL") +:+ "/users/me";
     method := "GET";
     headers := [("Authorization", "Bearer " +:+ token)];
     body := EmptyString |}.

(** [fetchUser], on the value of [Cookies.get('access_token')]; the state of
    the page is [userName]. *)
Definition fetchUser (token : option string) : @Page Net JsValue unit :=
  match token with
  | Some token =>
      if truthy token then
        page_try_catch
          (res ← await (fetch transport (user_request token));
           if ok res then
             data ← await (json res);
             first_name ← page_lift (get_property data "first_name");
             if truthy first_name then set_state (fun _ => first_name)
             else username ← page_lift (get_property data "username");
                  set_state (fun _ => username)
           else mret tt)
          (fun error => await (console_error "Failed to fetch user:" error))
      else mret tt
  | None => mret tt
  end.

End Handlers.

End HomePage.

(** What the opening of a handler ([fetch], [json()], the test of the status)
    makes of the outcome of its call: the parsed body of an answer with a
    status in 200-299, or the value thrown. *)
Definition answer_of (fallback : string) (outcome : FetchOutcome) : Completion Json :=
  match outcome with
  | Rejects reason => Throw (FetchFailed reason)
  | Resolves r =>
      match json_result r with
      | None => Throw BodyNotJson
      | Some data =>
          if ok r then Normal data
          else
            match get_property data "detail" with
            | Normal detail => Throw (ErrorOf (or_else detail (JString fallback)))
            | Throw e => Throw e
            end
      end
  end.

(** The members [JSON.stringify] writes: those whose value is defined. *)
Definition defined_members (members : list (string * option string))
  : list (string * string) :=
  omap (fun m => pair m.1 <$> m.2) members.

Definition member_text (m : string * string) : string :=
  JSON_quote m.1 +:+ ":" +:+ JSON_quote m.2.

(** ** The typewriter of the home page

    A string of the component is the list of its UTF-16 code units; the
    state is the three state variables the timer callback reads and writes.
    The callback runs against the state its effect closed over: the effect
    is set up anew whenever one of the three changes. *)

Section Typewriter.

Context {CodeUnit : Type} `{EqDecision CodeUnit}.

Record TypewriterState : Type := {
  currentText : list CodeUnit;
  currentIndex : option nat;     (* a natural number, or [NaN] *)
  isDeleting : bool
}.

Definition typewriter_start : TypewriterState :=
  {| currentText := []; currentIndex := Some 0%nat; isDeleting := false |}.

(** [(prev + 1) % text.length]: the remainder by zero is [NaN]. *)
Definition next_index (prev : option nat) (len : nat) : option nat :=
  match prev, len with
  | Some i, S _ => Some ((i + 1) mod len)%nat
  | _, _ => None
  end.

(** What one run of the timer callback does: the state it leaves and whether
    it starts the timer of the pause, or the [TypeError] it throws. *)
Inductive Tick : Type :=
| Ticked (s : TypewriterState) (pause : bool)
| TickThrows.

Definition tick (text : list (list CodeUnit)) (s : TypewriterState) : Tick :=
  let current := currentIndex s ≫= (text !!.) in
  if isDeleting s then
    let shorter := take (length (currentText s) - 1) (currentText s) in
    if decide (currentText s = []) then
      Ticked {| currentText := shorter;
                currentIndex := next_index (currentIndex s) (length text);
                isDeleting := false |} false
    else
      Ticked {| currentText := shorter; currentIndex := currentIndex s;
                isDeleting := true |} false
  else
    match current with
    | None => TickThrows
    | Some current =>
        Ticked {| currentText := take (length (currentText s) + 1) current;
                  currentIndex := currentIndex s; isDeleting := false |}
               (bool_decide (currentText s = current))
    end.

(** The timer of the pause fires: [setIsDeleting(true)]. *)
Definition pause_elapsed (s : TypewriterState) : TypewriterState :=
  {| currentText := currentText s; currentIndex := currentIndex s; isDeleting := true |}.

(** [n] runs of the callback in a row. *)
Fixpoint ticks (text : list (list CodeUnit)) (n : nat) (s : TypewriterState)
  : option TypewriterState :=
  match n with
  | O => Some s
  | S n =>
      match tick text s with
      | Ticked s' _ => ticks text n s'
      | TickThrows => None
      end
  end.

(** The states the component goes through. *)
Inductive typewriter_reaches (text : list (list CodeUnit)) : TypewriterState -> Prop :=
| reaches_start : typewriter_reaches text typewriter_start
| reaches_tick s s' pause :
    typewriter_reaches text s -> tick text s = Ticked s' pause ->
    typewriter_reaches text s'
| reaches_pause s :
    typewriter_reaches text s -> typewriter_reaches text (pause_elapsed s).

End Typewriter.


Section TypewriterStates.

Context {CodeUnit : Type}.

(** The component typing or deleting the text of index [i], with [shown] on
    the screen. *)
Definition typing (i : nat) (shown : list CodeUnit) : TypewriterState :=
  {| currentText := shown; currentIndex := Some i; isDeleting := false |}.

Definition deleting (i : nat) (shown : list CodeUnit) : TypewriterState :=
  {| currentText := shown; currentIndex := Some i; isDeleting := true |}.

(** The shown text is the beginning of the text of the current index. *)
Definition shows_prefix (text : list (list CodeUnit)) (s : TypewriterState) : Prop :=
  exists i current,
    currentIndex s = Some i /\ text !! i = Some current
    /\ currentText s `prefix_of` current.

End TypewriterStates.


(** *** Samples for the pages *)

Definition sample_engine_message : Exn -> string := fun _ => "TypeError".

(** The parser of the browser on three fragments. *)
Definition sample_URLSearchParams (text : string) : list (string * string) :=
  if String.eqb text "access_token=A1&refresh_token=R1"
  then [("access_token", "A1"); ("refresh_token", "R1")]
  else if String.eqb text "error_description=Link%2Bhas+expired&access_token=A1&refresh_token=R1"
  then [("error_description", "Link+has expired"); ("access_token", "A1");
        ("refresh_token", "R1")]
  else [].

Definition sample_texts : list (list nat) := [[72; 105]; [79; 75; 33]]%nat.

Definition sample_account : AuthPage.State :=
  {| AuthPage.isLogin := false; AuthPage.email := "ann@example.com";
     AuthPage.password := "secret"; AuthPage.username := "ann";
     AuthPage.firstName := "Ann"; AuthPage.lastName := "Lee";
     AuthPage.error := Some "old error"; AuthPage.message := None;
     AuthPage.forgotPassword := false |}.

Definition sample_reset (typed again : string) (access refresh : option string)
  : ResetPasswordPage.State :=
  {| ResetPasswordPage.accessToken := access; ResetPasswordPage.refreshToken := refresh;
     ResetPasswordPage.password := typed; ResetPasswordPage.confirmPassword := again;
     ResetPasswordPage.error := None; ResetPasswordPage.message := None;
     ResetPasswordPage.isVerifying := false |}.

(** ** The guard, case by case *)

Lemma absent_spec token : absent token <-> token = None \/ token = Some EmptyString.
Proof.
  unfold absent. destruct token as [[|c s]|]; cbn; split; intros H;
    try tauto; try (by right); try (by left); destruct H; congruence.
Qed.

Lemma present_spec token : present token <-> exists c s, token = Some (String c s).
Proof.
  unfold present. destruct token as [[|c s]|]; cbn; split; intros H; try done.
  - by destruct H as (? & ? & ?).
  - eauto.
  - by destruct H as (? & ? & ?).
Qed.

Lemma present_not_absent token : present token -> ~ absent token.
Proof. unfold present, absent. congruence. Qed.

Lemma accessToken_of_lookup request :
  accessToken_of request = req_cookies request !! "access_token".
Proof.
  unfold accessToken_of, req_cookies_get.
  by destruct (req_cookies request !! "access_token").
Qed.

Lemma refreshToken_of_lookup request :
  refreshToken_of request = req_cookies request !! "refresh_token".
Proof.
  unfold refreshToken_of, req_cookies_get.
  by destruct (req_cookies request !! "refresh_token").
Qed.

Lemma loginUrl_of_eq request :
  loginUrl_of request =
    {| origin := origin (url request); pathname := "/auth";
       searchParams := [("next", pathname (nextUrl request))];
       hash := EmptyString |}.
Proof. reflexivity. Qed.

Lemma without_credentials_absent request :
  absent (accessToken_of (without_credentials request))
  /\ absent (refreshToken_of (without_credentials request)).
Proof.
  rewrite accessToken_of_lookup, refreshToken_of_lookup. cbn.
  rewrite lookup_delete_ne by done. by rewrite !lookup_delete_eq.
Qed.

(** ** Writing a string literal and reading it back *)

Lemma append_cons c s t : String c s +:+ t = String c (s +:+ t).
Proof. reflexivity. Qed.

Lemma append_assoc (a b c : string) : (a +:+ b) +:+ c = a +:+ (b +:+ c).
Proof.
  induction a as [|x a IH]; [reflexivity |].
  rewrite !append_cons. by rewrite IH.
Qed.

Lemma JSON_read_quote_char c rest :
  JSON_read_char (JSON_quote_char c +:+ rest) = Some (c, rest).
Proof. destruct c as [[] [] [] [] [] [] [] []]; reflexivity. Qed.

Lemma JSON_quote_char_head c rest :
  exists d tail, JSON_quote_char c +:+ rest = String d tail
                 /\ (N_of_ascii d =? 34)%N = false.
Proof.
  destruct c as [[] [] [] [] [] [] [] []]; do 2 eexists;
    (split; [reflexivity | reflexivity]).
Qed.

Lemma JSON_quote_char_length c rest :
  (String.length rest < String.length (JSON_quote_char c +:+ rest))%nat.
Proof.
  destruct c as [[] [] [] [] [] [] [] []];
    lazy -[String.length lt]; cbn [String.length]; lia.
Qed.

Lemma JSON_escape_length s rest :
  (String.length s <= String.length (JSON_escape s +:+ rest))%nat.
Proof.
  induction s as [|c s IH]; [cbn; lia |].
  change (JSON_escape (String c s)) with (JSON_quote_char c +:+ JSON_escape s).
  rewrite append_assoc.
  pose proof (JSON_quote_char_length c (JSON_escape s +:+ rest)).
  cbn [String.length]. lia.
Qed.

Lemma JSON_read_escape s : forall fuel rest,
  (String.length s < fuel)%nat ->
  JSON_read_chars fuel (JSON_escape s +:+ String quote rest) = Some (s, rest).
Proof.
  induction s as [|c s IH]; intros fuel rest Hfuel.
  - destruct fuel as [|fuel]; [cbn in Hfuel; lia | reflexivity].
  - change (JSON_escape (String c s)) with (JSON_quote_char c +:+ JSON_escape s).
    rewrite append_assoc.
    destruct (JSON_quote_char_head c (JSON_escape s +:+ String quote rest))
      as (d & tail & Hhead & Hquote).
    destruct fuel as [|fuel]; [cbn in Hfuel; lia |].
    cbn [JSON_read_chars]. rewrite Hhead, Hquote, <- Hhead.
    rewrite JSON_read_quote_char, IH; [done |].
    cbn in Hfuel. lia.
Qed.

Lemma JSON_read_quote s rest :
  JSON_read_string (JSON_quote s +:+ rest) = Some (s, rest).
Proof.
  unfold JSON_quote.
  change (String quote (JSON_escape s +:+ String quote EmptyString) +:+ rest)
    with (String quote ((JSON_escape s +:+ String quote EmptyString) +:+ rest)).
  rewrite append_assoc.
  change (String quote EmptyString +:+ rest) with (String quote rest).
  unfold JSON_read_string.
  change (N_of_ascii quote =? 34)%N with true. cbn iota.
  apply JSON_read_escape.
  pose proof (JSON_escape_length s (String quote rest)).
  cbn [String.length]. lia.
Qed.

Lemma JSON_stringify_member k v :
  JSON_stringify [(k, Some v)]
    = String "{" (JSON_quote k +:+ String ":" (JSON_quote v +:+ "}")).
Proof.
  change (JSON_stringify [(k, Some v)])
    with (String "{" ((JSON_quote k +:+ String ":" (JSON_quote v)) +:+ "}")).
  rewrite append_assoc, append_cons. reflexivity.
Qed.

(** The object [JSON.stringify] writes for one string member reads back as
    that member. *)
Lemma JSON_read_stringify k v :
  JSON_read_member (JSON_stringify [(k, Some v)]) = Some (k, v).
Proof.
  rewrite JSON_stringify_member. unfold JSON_read_member.
  rewrite JSON_read_quote. by rewrite JSON_read_quote.
Qed.

Section GuardFacts.

Context {Net : Type}.
Variable transport : FetchRequest -> Net -> FetchOutcome * Net.
Variable env : gmap string string.

Lemma middleware_present request w :
  present (accessToken_of request) ->
  middleware transport env request w = (Normal NextResponse_next, w).
Proof.
  unfold present, accessToken_of, middleware. intros ->. reflexivity.
Qed.

Lemma middleware_no_credentials request w :
  absent (accessToken_of request) -> absent (refreshToken_of request) ->
  middleware transport env request w
    = (Normal (NextResponse_redirect (loginUrl_of request)), w).
Proof.
  unfold absent, accessToken_of, refreshToken_of, middleware.
  intros -> ->. reflexivity.
Qed.

Lemma middleware_renewal request w :
  absent (accessToken_of request) -> present (refreshToken_of request) ->
  middleware transport env request w =
    let rq := renewal_request env (refreshToken_of request) in
    let w1 := {| net := (transport rq (net w)).2; trace := trace w ++ [Fetched rq] |} in
    match renewal_of (transport rq (net w)).1 with
    | Renewed v =>
        (Normal {| disposition := PassThrough;
                   res_cookies := {[ "access_token" := access_cookie v ]} |}, w1)
    | Failed e =>
        (Normal (NextResponse_redirect (loginUrl_of request)),
         emit (ConsoleError "Token refresh failed:" e) w1)
    end.
Proof.
  unfold absent, present, accessToken_of, refreshToken_of, middleware.
  intros -> ->. cbn beta iota delta [negb].
  unfold try_catch, mbind, Js_bind, fetch, renewal_of.
  destruct (transport _ (net w)) as [[r | reason] n']; cbn [fst snd]; [|reflexivity].
  unfold json. destruct (json_result r) as [data|]; [|reflexivity].
  cbn. destruct (ok r); cbn.
  - unfold lift. destruct (get_property data "access_token") as [v | e]; [| reflexivity].
    unfold res_cookies_set. cbn [value access_cookie].
    destruct (encodeURIComponent_throws v); reflexivity.
  - unfold lift. destruct (get_property data "detail"); reflexivity.
Qed.

(** Nothing thrown escapes the guard: it always hands a response back. *)
Lemma middleware_returns request w :
  exists response w', middleware transport env request w = (Normal response, w').
Proof.
  destruct (truthy (accessToken_of request)) eqn:Ha.
  - rewrite middleware_present by done. eauto.
  - destruct (truthy (refreshToken_of request)) eqn:Hr.
    + rewrite middleware_renewal by done. cbn zeta.
      destruct (renewal_of _); eauto.
    + rewrite middleware_no_credentials by done. eauto.
Qed.

Lemma renewal_of_fails outcome :
  renewal_fails outcome -> exists e, renewal_of outcome = Failed e.
Proof.
  intros [r Hok | reason | r Hbody]; cbn.
  - rewrite Hok. destruct (json_result r) as [data|]; [|eauto].
    destruct (get_property data "detail"); eauto.
  - eauto.
  - rewrite Hbody. eauto.
Qed.

Lemma renewal_of_token r members :
  ok r = true -> json_result r = Some (JObject members) ->
  encodeURIComponent_throws (own_property members "access_token") = None ->
  renewal_of (Resolves r) = Renewed (own_property members "access_token").
Proof.
  intros Hok Hbody Hvalue. unfold renewal_of. rewrite Hbody, Hok.
  cbn [get_property]. by rewrite Hvalue.
Qed.

Lemma renewal_of_bad_value r members e :
  ok r = true -> json_result r = Some (JObject members) ->
  encodeURIComponent_throws (own_property members "access_token") = Some e ->
  renewal_of (Resolves r) = Failed e.
Proof.
  intros Hok Hbody Hvalue. unfold renewal_of. rewrite Hbody, Hok.
  cbn [get_property]. by rewrite Hvalue.
Qed.

Lemma well_formed_string_is_set (T : string) :
  lone_surrogate T = false -> encodeURIComponent_throws (Some (JString T)) = None.
Proof. intros HT. cbn. by rewrite HT. Qed.

Lemma invoke_renewed request n r members :
  absent (accessToken_of request) ->
  present (refreshToken_of request) ->
  (transport (renewal_request env (refreshToken_of request)) n).1 = Resolves r ->
  ok r = true ->
  json_result r = Some (JObject members) ->
  encodeURIComponent_throws (own_property members "access_token") = None ->
  (invoke transport env request n).1 =
    Normal {| disposition := PassThrough;
              res_cookies :=
                {[ "access_token" :=
                     access_cookie (own_property members "access_token") ]} |}.
Proof.
  intros Ha Hr Hcall Hok Hbody Hvalue. unfold invoke.
  rewrite middleware_renewal by done. cbn zeta. cbn [net].
  by rewrite Hcall, (renewal_of_token r members).
Qed.

Lemma invoke_bad_value request n r members e :
  absent (accessToken_of request) ->
  present (refreshToken_of request) ->
  (transport (renewal_request env (refreshToken_of request)) n).1 = Resolves r ->
  ok r = true ->
  json_result r = Some (JObject members) ->
  encodeURIComponent_throws (own_property members "access_token") = Some e ->
  invoke transport env request n
    = (Normal (NextResponse_redirect (loginUrl_of request)),
       {| net := (transport (renewal_request env (refreshToken_of request)) n).2;
          trace := [Fetched (renewal_request env (refreshToken_of request));
                    ConsoleError "Token refresh failed:" e] |}).
Proof.
  intros Ha Hr Hcall Hok Hbody Hvalue. unfold invoke.
  rewrite middleware_renewal by done. cbn zeta. cbn [net trace].
  by rewrite Hcall, (renewal_of_bad_value r members e).
Qed.

(** C1, as amended. With the short-lived credential absent and the
    long-lived one present, a renewal answered with a success status and a
    body whose [access_token] member is the well-formed string [T] (no
    unpaired surrogate in it) makes the guard pass the request through (no
    redirect) with the cookie [access_token = T], path ['/'], secure,
    same-site strict. *)
Theorem renewal_success_sets_access_cookie request n r members T :
  absent (accessToken_of request) ->
  present (refreshToken_of request) ->
  (transport (renewal_request env (refreshToken_of request)) n).1 = Resolves r ->
  ok r = true ->
  json_result r = Some (JObject members) ->
  own_property members "access_token" = Some (JString T) ->
  lone_surrogate T = false ->
  (invoke transport env request n).1 =
    Normal {| disposition := PassThrough;
              res_cookies :=
                {[ "access_token" :=
                     {| value := Some (JString T); path := Some "/"; domain := None;
                        secure := Some true; httpOnly := None;
                        sameSite := Some Strict; maxAge := None |} ]} |}.
Proof.
  intros Ha Hr Hcall Hok Hbody HT Hwell.
  rewrite (invoke_renewed request n r members);
    [by rewrite HT | done | done | done | done | done |].
  rewrite HT. by apply well_formed_string_is_set.
Qed.

(** C2. With the short-lived credential absent and the long-lived one
    present, a renewal that answers with a status outside 200-299 or that
    throws (the call itself, or the reading of a body that is not JSON)
    makes the guard redirect to the login path with [next] set to the
    requested path and no cookie set: the very response of the same request
    without credentials. *)
Theorem renewal_failure_redirects_to_login request n :
  absent (accessToken_of request) ->
  present (refreshToken_of request) ->
  renewal_fails (transport (renewal_request env (refreshToken_of request)) n).1 ->
  (invoke transport env request n).1
    = Normal {| disposition :=
                  RedirectTo {| origin := origin (url request); pathname := "/auth";
                                searchParams := [("next", pathname (nextUrl request))];
                                hash := EmptyString |} 307;
                res_cookies := ∅ |}
  /\ (invoke transport env (without_credentials request) n).1
       = (invoke transport env request n).1.
Proof.
  intros Ha Hr Hfail. unfold invoke.
  destruct (without_credentials_absent request) as [Ha' Hr'].
  rewrite (middleware_no_credentials (without_credentials request)) by done.
  rewrite middleware_renewal by done. cbn zeta. cbn [net].
  destruct (renewal_of_fails _ Hfail) as [e ->].
  by split.
Qed.

(** C3. With both credentials absent the guard redirects to the login path
    with [next] set to the requested path, and calls nothing: the trace of
    the run is empty and the network is as it was. *)
Theorem no_credentials_redirects_to_login request n :
  absent (accessToken_of request) ->
  absent (refreshToken_of request) ->
  invoke transport env request n
    = (Normal {| disposition :=
                   RedirectTo {| origin := origin (url request); pathname := "/auth";
                                 searchParams := [("next", pathname (nextUrl request))];
                                 hash := EmptyString |} 307;
                 res_cookies := ∅ |},
       {| net := n; trace := [] |})
  /\ fetch_calls (trace (invoke transport env request n).2) = [].
Proof.
  intros Ha Hr. unfold invoke.
  rewrite middleware_no_credentials by done. by split.
Qed.

(** C4. With the short-lived credential present the guard passes the
    request through with no cookie on the response and calls nothing,
    whatever the long-lived credential, the value of the token and the
    state of the service are. *)
Theorem present_token_passes_through request n :
  present (accessToken_of request) ->
  invoke transport env request n
    = (Normal {| disposition := PassThrough; res_cookies := ∅ |},
       {| net := n; trace := [] |})
  /\ fetch_calls (trace (invoke transport env request n).2) = [].
Proof.
  intros Ha. unfold invoke. rewrite middleware_present by done. by split.
Qed.

End GuardFacts.

(** ** Calls made and cookies written *)

Section GuardEffects.

Context {Net : Type}.
Variable transport : FetchRequest -> Net -> FetchOutcome * Net.
Variable env : gmap string string.

(** The calls of a run that attempts the renewal: that one call. *)
Lemma renewal_calls request n :
  absent (accessToken_of request) -> present (refreshToken_of request) ->
  fetch_calls (trace (invoke transport env request n).2)
    = [renewal_request env (refreshToken_of request)].
Proof.
  intros Ha Hr. unfold invoke. rewrite middleware_renewal by done. cbn zeta.
  destruct (renewal_of _); reflexivity.
Qed.

(** C5. A run of the guard makes at most one call, on every path; with the
    short-lived credential absent and the long-lived one present it makes
    exactly one, a POST to the renewal endpoint whose body is the JSON
    object with the long-lived credential under [refresh_token]. *)
Theorem at_most_one_renewal_call request n :
  (length (fetch_calls (trace (invoke transport env request n).2)) <= 1)%nat
  /\ (absent (accessToken_of request) ->
      present (refreshToken_of request) ->
      exists refreshToken,
        req_cookies request !! "refresh_token" = Some refreshToken
        /\ fetch_calls (trace (invoke transport env request n).2)
           = [ {| fetch_url := template (env !! "NEXT_PUBLIC_API_URL") +:+ "/auth/refresh";
                  method := "POST";
                  headers := [("Content-Type", "application/json")];
                  body := JSON_stringify [("refresh_token", Some refreshToken)] |} ]
        /\ JSON_read_member (JSON_stringify [("refresh_token", Some refreshToken)])
           = Some ("refresh_token", refreshToken)).
Proof.
  split.
  - destruct (truthy (accessToken_of request)) eqn:Ha.
    + unfold invoke. rewrite middleware_present by done. cbn. lia.
    + destruct (truthy (refreshToken_of request)) eqn:Hr.
      * rewrite renewal_calls by done. cbn. lia.
      * unfold invoke. rewrite middleware_no_credentials by done. cbn. lia.
  - intros Ha Hr. rewrite renewal_calls by done.
    destruct (proj1 (present_spec _) Hr) as (c & s & Hs).
    exists (String c s). rewrite <- refreshToken_of_lookup.
    split_and!; [done | by rewrite Hs | apply JSON_read_stringify].
Qed.

Lemma renewal_of_renewed outcome v :
  renewal_of outcome = Renewed v <-> renewal_succeeds outcome v.
Proof.
  unfold renewal_succeeds. split.
  - destruct outcome as [r | reason]; [| done]. unfold renewal_of.
    destruct (json_result r) as [data|] eqn:Hbody; [| done].
    destruct (ok r) eqn:Hok.
    + destruct (get_property data "access_token") as [w | e] eqn:Hget; [| done].
      destruct (encodeURIComponent_throws w) eqn:Hw; [done |].
      intros [= <-]. by exists r, data.
    + by destruct (get_property data "detail").
  - intros (r & data & -> & Hok & Hbody & Hget & Hv). unfold renewal_of.
    by rewrite Hbody, Hok, Hget, Hv.
Qed.

Lemma renewal_of_failed outcome e :
  renewal_of outcome = Failed e -> forall v, ~ renewal_succeeds outcome v.
Proof.
  intros Hfailed v Hsucceeds. apply renewal_of_renewed in Hsucceeds. congruence.
Qed.

(** C6. Whatever the request and the outcome of the renewal, the response
    carries no [refresh_token] cookie (neither a new value nor a deletion),
    and no cookie other than [access_token]; a cookie is on the response
    only after a renewal answered with a success status and a JSON body; a
    redirect carries no cookie, and with the short-lived credential present
    the response is the bare pass-through.  Every failure path is the login
    redirect without a cookie: a request without credentials is redirected,
    and a request whose renewal is attempted is redirected whenever the
    renewal does not succeed, and carries the cookie when it does. *)
Theorem guard_writes_only_access_token request n :
  exists response w,
    invoke transport env request n = (Normal response, w)
    /\ res_cookies response !! "refresh_token" = None
    /\ dom (res_cookies response) ⊆ ({[ "access_token" ]} : gset string)
    /\ (res_cookies response <> ∅ ->
        disposition response = PassThrough
        /\ absent (accessToken_of request)
        /\ present (refreshToken_of request)
        /\ exists r data,
             (transport (renewal_request env (refreshToken_of request)) n).1 = Resolves r
             /\ ok r = true /\ json_result r = Some data)
    /\ (forall loginUrl code,
          disposition response = RedirectTo loginUrl code -> res_cookies response = ∅)
    /\ (forall e, In (ConsoleError "Token refresh failed:" e) (trace w) ->
          exists loginUrl code,
            disposition response = RedirectTo loginUrl code /\ res_cookies response = ∅)
    /\ (present (accessToken_of request) -> response = NextResponse_next)
    /\ (absent (accessToken_of request) -> absent (refreshToken_of request) ->
        response
        = {| disposition :=
               RedirectTo {| origin := origin (url request); pathname := "/auth";
                             searchParams := [("next", pathname (nextUrl request))];
                             hash := EmptyString |} 307;
             res_cookies := ∅ |})
    /\ (absent (accessToken_of request) -> present (refreshToken_of request) ->
        let outcome := (transport (renewal_request env (refreshToken_of request)) n).1 in
        (forall v,
            renewal_succeeds outcome v ->
            response
            = {| disposition := PassThrough;
                 res_cookies := {[ "access_token" := access_cookie v ]} |})
        /\ ((forall v, ~ renewal_succeeds outcome v) ->
            response
            = {| disposition :=
                   RedirectTo {| origin := origin (url request); pathname := "/auth";
                                 searchParams := [("next", pathname (nextUrl request))];
                                 hash := EmptyString |} 307;
                 res_cookies := ∅ |})).
Proof.
  unfold invoke.
  destruct (truthy (accessToken_of request)) eqn:Ha.
  - rewrite middleware_present by done.
    do 2 eexists. split; [reflexivity|]. cbn.
    split_and!; try done; unfold absent; congruence.
  - destruct (truthy (refreshToken_of request)) eqn:Hr.
    + rewrite middleware_renewal by done. cbn zeta. cbn [net].
      destruct (transport _ n) as [outcome n'] eqn:Hcall. cbn [fst snd].
      destruct (renewal_of outcome) as [v | e] eqn:Hren.
      * pose proof (proj1 (renewal_of_renewed outcome v) Hren) as Hsucceeds.
        do 2 eexists. split; [reflexivity|]. cbn.
        split_and!; try done.
        -- intros _. split_and!; try done.
           destruct Hsucceeds as (r & data & -> & Hok & Hbody & _). eauto.
        -- intros e [He | []]. discriminate He.
        -- unfold present. congruence.
        -- unfold absent. congruence.
        -- intros _ _. split.
           ++ intros v' Hv'. apply renewal_of_renewed in Hv'.
              by assert (v' = v) as -> by congruence.
           ++ intros Hnone. destruct (Hnone v Hsucceeds).
      * pose proof (renewal_of_failed outcome e Hren) as Hfails.
        do 2 eexists. split; [reflexivity|]. cbn.
        split_and!; try done.
        -- intros e0 _. eauto.
        -- unfold present. congruence.
        -- intros _ _. split; [| done].
           intros v' Hv'. destruct (Hfails v' Hv').
    + rewrite middleware_no_credentials by done.
      do 2 eexists. split; [reflexivity|]. cbn.
      split_and!; try done; [unfold present | unfold present]; congruence.
Qed.

End GuardEffects.

(** ** No state between runs, and what a run depends on *)

Section TwoRuns.

Context {Net1 Net2 : Type}.
Variable transport1 : FetchRequest -> Net1 -> FetchOutcome * Net1.
Variable transport2 : FetchRequest -> Net2 -> FetchOutcome * Net2.
Variables env1 env2 : gmap string string.

(** Two runs that read the same credentials, requested path and origin and
    whose renewal calls have the same outcome give the same response,
    whatever else differs in the requests, the environments and the
    networks. *)
Lemma response_settled request1 request2 n1 n2 :
  accessToken_of request1 = accessToken_of request2 ->
  refreshToken_of request1 = refreshToken_of request2 ->
  pathname (nextUrl request1) = pathname (nextUrl request2) ->
  origin (url request1) = origin (url request2) ->
  (transport1 (renewal_request env1 (refreshToken_of request1)) n1).1
    = (transport2 (renewal_request env2 (refreshToken_of request2)) n2).1 ->
  (invoke transport1 env1 request1 n1).1 = (invoke transport2 env2 request2 n2).1.
Proof.
  intros Ha Hr Hpath Horigin Hout. unfold invoke.
  assert (Hlogin : loginUrl_of request1 = loginUrl_of request2).
  { rewrite !loginUrl_of_eq. by rewrite Hpath, Horigin. }
  destruct (truthy (accessToken_of request2)) eqn:Ha2.
  - rewrite !middleware_present; [done | done | by unfold present; rewrite Ha].
  - destruct (truthy (refreshToken_of request2)) eqn:Hr2.
    + rewrite !middleware_renewal;
        [| done | done | by unfold absent; rewrite Ha | by unfold present; rewrite Hr].
      cbn zeta. cbn [net]. rewrite Hout, Hlogin.
      by destruct (renewal_of _).
    + rewrite !middleware_no_credentials;
        [| done | done | by unfold absent; rewrite Ha | by unfold absent; rewrite Hr].
      by rewrite Hlogin.
Qed.

End TwoRuns.

Section Sequence.

Context {Net : Type}.
Variable transport : FetchRequest -> Net -> FetchOutcome * Net.
Variable env : gmap string string.

(** C7, as amended. Against a service that always answers with the same
    successful response, two runs in sequence on the same request (short-lived
    credential absent, long-lived one present) give the same response, with
    the same [access_token] cookie: the issued token when that is a
    well-formed string, and none, on the same login redirect, when it holds
    an unpaired surrogate; and the response of any run is settled by the two
    credentials, the requested path, the origin of the request URL and the
    outcome of the renewal call: the state the first run leaves behind plays
    no part. *)
Theorem sequential_runs_agree :
  (forall request n r members T,
      (forall rq m, (transport rq m).1 = Resolves r) ->
      ok r = true ->
      json_result r = Some (JObject members) ->
      own_property members "access_token" = Some (JString T) ->
      absent (accessToken_of request) ->
      present (refreshToken_of request) ->
      let first := invoke transport env request n in
      let second := invoke transport env request (net first.2) in
      first.1 = second.1
      /\ exists response,
           first.1 = Normal response
           /\ second.1 = Normal response
           /\ (lone_surrogate T = false ->
               value <$> res_cookies response !! "access_token"
               = Some (Some (JString T)))
           /\ (lone_surrogate T = true ->
               response
               = {| disposition :=
                      RedirectTo {| origin := origin (url request); pathname := "/auth";
                                    searchParams := [("next", pathname (nextUrl request))];
                                    hash := EmptyString |} 307;
                    res_cookies := ∅ |}))
  /\ (forall request1 request2 n1 n2,
        accessToken_of request1 = accessToken_of request2 ->
        refreshToken_of request1 = refreshToken_of request2 ->
        pathname (nextUrl request1) = pathname (nextUrl request2) ->
        origin (url request1) = origin (url request2) ->
        (transport (renewal_request env (refreshToken_of request1)) n1).1
          = (transport (renewal_request env (refreshToken_of request2)) n2).1 ->
        (invoke transport env request1 n1).1 = (invoke transport env request2 n2).1).
Proof.
  split.
  - intros request n r members T Halways Hok Hbody HT Ha Hr first second.
    assert (Hsame : first.1 = second.1).
    { apply response_settled; try done. by rewrite !Halways. }
    split; [done |].
    destruct (middleware_returns transport env request {| net := n; trace := [] |})
      as (response & w & Hrun).
    assert (Hfirst : first.1 = Normal response) by (subst first; unfold invoke; by rewrite Hrun).
    exists response. split_and!; [done | by rewrite <- Hsame | |].
    + intros Hwell. subst first.
      rewrite (invoke_renewed transport env request n r members) in Hfirst;
        [| done | done | done | done | done
         | rewrite HT; by apply well_formed_string_is_set].
      injection Hfirst as <-. cbn. by rewrite lookup_singleton_eq, HT.
    + intros Hbroken. subst first.
      rewrite (invoke_bad_value transport env request n r members MalformedURI) in Hfirst;
        [| done | done | done | done | done | rewrite HT; cbn; by rewrite Hbroken].
      by injection Hfirst as <-.
  - intros request1 request2 n1 n2. apply response_settled.
Qed.

End Sequence.

(** ** The credentials are opaque *)



Section Opacity.

Context {Net : Type}.
Variable transport : FetchRequest -> Net -> FetchOutcome * Net.
Variable env : gmap string string.


(** C9. A cookie holding the empty string counts as no cookie.  With
    [access_token] empty and a non-empty [refresh_token] the guard attempts
    the renewal, exactly as without the [access_token] cookie; with both
    empty it gives the login redirect of a request without credentials,
    and calls nothing. *)
Theorem empty_cookie_counts_as_absent request n :
  req_cookies request !! "access_token" = Some EmptyString ->
  (forall refreshToken,
      req_cookies request !! "refresh_token" = Some refreshToken ->
      refreshToken <> EmptyString ->
      fetch_calls (trace (invoke transport env request n).2)
        = [renewal_request env (Some refreshToken)]
      /\ invoke transport env request n
         = invoke transport env (without_cookie request "access_token") n)
  /\ (req_cookies request !! "refresh_token" = Some EmptyString ->
      invoke transport env request n
        = (Normal {| disposition :=
                       RedirectTo {| origin := origin (url request); pathname := "/auth";
                                     searchParams := [("next", pathname (nextUrl request))];
                                     hash := EmptyString |} 307;
                     res_cookies := ∅ |},
           {| net := n; trace := [] |})
      /\ invoke transport env request n
         = invoke transport env (without_credentials request) n).
Proof.
  intros Hempty.
  assert (Ha : absent (accessToken_of request))
    by (unfold absent; by rewrite accessToken_of_lookup, Hempty).
  split.
  - intros refreshToken Hcookie Hne.
    assert (Hr : present (refreshToken_of request)).
    { unfold present. rewrite refreshToken_of_lookup, Hcookie.
      by destruct refreshToken. }
    split.
    + rewrite renewal_calls by done. by rewrite refreshToken_of_lookup, Hcookie.
    + assert (Ha' : absent (accessToken_of (without_cookie request "access_token"))).
      { unfold absent. rewrite accessToken_of_lookup. cbn.
        by rewrite lookup_delete_eq. }
      assert (Hr' : refreshToken_of (without_cookie request "access_token")
                    = refreshToken_of request).
      { rewrite !refreshToken_of_lookup. cbn. by rewrite lookup_delete_ne. }
      unfold invoke.
      rewrite (middleware_renewal _ _ request) by done.
      rewrite (middleware_renewal _ _ (without_cookie request "access_token"))
        by (by unfold present; rewrite ?Hr').
      by rewrite Hr'.
  - intros Hcookie.
    assert (Hr : absent (refreshToken_of request))
      by (unfold absent; by rewrite refreshToken_of_lookup, Hcookie).
    destruct (without_credentials_absent request) as [Ha' Hr'].
    unfold invoke. rewrite !middleware_no_credentials by done. by split.
Qed.

(** C10, as amended. A renewal answered with a success status and a body
    that is not [null] and has no [access_token] key does not redirect: the
    guard passes the request through and sets the [access_token] cookie
    with the value [undefined], without checking the payload. *)
Theorem success_without_token_sets_undefined request n r data :
  absent (accessToken_of request) ->
  present (refreshToken_of request) ->
  (transport (renewal_request env (refreshToken_of request)) n).1 = Resolves r ->
  ok r = true ->
  json_result r = Some data ->
  data <> JNull ->
  ~ has_key data "access_token" ->
  (invoke transport env request n).1 =
    Normal {| disposition := PassThrough;
              res_cookies :=
                {[ "access_token" :=
                     {| value := None; path := Some "/"; domain := None;
                        secure := Some true; httpOnly := None;
                        sameSite := Some Strict; maxAge := None |} ]} |}.
Proof.
  intros Ha Hr Hcall Hok Hbody Hnull Hkey. unfold invoke.
  rewrite middleware_renewal by done. cbn zeta. cbn [net].
  rewrite Hcall. cbn. rewrite Hbody, Hok.
  destruct data as [| b | x | s | xs | members]; try done.
  cbn. destruct (own_property members "access_token") as [v|] eqn:Hv; [|done].
  destruct Hkey. by exists members, v.
Qed.

End Opacity.

(** ** The statements at sample inputs *)

Ltac evaluate := vm_compute; reflexivity.

Lemma renewal_success_sets_access_cookie_witness :
  let service := constant_service (reply 200 (token_body "T1")) in
  absent (accessToken_of request_to_renew)
  /\ present (refreshToken_of request_to_renew)
  /\ (invoke service sample_env request_to_renew tt).1 =
       Normal {| disposition := PassThrough;
                 res_cookies :=
                   {[ "access_token" :=
                        {| value := Some (JString "T1"); path := Some "/"; domain := None;
                           secure := Some true; httpOnly := None;
                           sameSite := Some Strict; maxAge := None |} ]} |}.
Proof.
  intros service. split_and!; [evaluate | evaluate |].
  apply (renewal_success_sets_access_cookie service sample_env request_to_renew tt
           {| status := 200; json_result := Some (token_body "T1") |}
           [("access_token", JString "T1")] "T1"); evaluate.
Defined.

(** A successful answer whose token is the string of one unpaired surrogate
    (the JSON text [{"access_token": "\ud800"}]): [cookies.set] throws a
    URIError while it serialises the value, and the guard redirects to
    login without a cookie. *)
Lemma lone_surrogate_token_redirects :
  ~ success_always_sets_the_cookie.
Proof.
  intros Hclaim.
  specialize (Hclaim unit (constant_service (reply 200 (token_body lone_D800))) sample_env
                request_to_renew tt
                {| status := 200; json_result := Some (token_body lone_D800) |} lone_D800
                eq_refl eq_refl eq_refl eq_refl eq_refl).
  vm_compute in Hclaim. discriminate Hclaim.
Qed.

Lemma lone_surrogate_token_response :
  invoke (constant_service (reply 200 (token_body lone_D800))) sample_env request_to_renew tt
  = (Normal {| disposition :=
                 RedirectTo {| origin := blog; pathname := "/auth";
                               searchParams := [("next", "/account/settings")];
                               hash := EmptyString |} 307;
               res_cookies := ∅ |},
     {| net := tt;
        trace := [Fetched (renewal_request sample_env (Some "R1"));
                  ConsoleError "Token refresh failed:" MalformedURI] |}).
Proof. evaluate. Qed.

Lemma renewal_failure_redirects_to_login_witness :
  let service := constant_service (reply 401 (JObject [("detail", JString "Invalid token")])) in
  absent (accessToken_of request_to_renew)
  /\ present (refreshToken_of request_to_renew)
  /\ (invoke service sample_env request_to_renew tt).1
       = Normal {| disposition :=
                     RedirectTo {| origin := blog; pathname := "/auth";
                                   searchParams := [("next", "/account/settings")];
                                   hash := EmptyString |} 307;
                   res_cookies := ∅ |}
  /\ (invoke service sample_env (without_credentials request_to_renew) tt).1
       = (invoke service sample_env request_to_renew tt).1.
Proof.
  intros service. split; [evaluate | split; [evaluate |]].
  apply (renewal_failure_redirects_to_login service sample_env request_to_renew tt).
  - evaluate.
  - evaluate.
  - apply fails_status. evaluate.
Defined.

Lemma renewal_throw_redirects_to_login :
  (invoke (constant_service (Rejects "ECONNREFUSED")) sample_env request_to_renew tt).1
    = (invoke (constant_service (reply 401 JNull)) sample_env request_to_renew tt).1
  /\ (invoke (constant_service (Resolves {| status := 200; json_result := None |}))
        sample_env request_to_renew tt).1
     = (invoke (constant_service (Rejects "ECONNREFUSED")) sample_env request_bare tt).1.
Proof. split; evaluate. Qed.

Lemma no_credentials_redirects_to_login_witness :
  absent (accessToken_of request_bare)
  /\ absent (refreshToken_of request_bare)
  /\ invoke (counting_service (reply 200 (token_body "T1"))) sample_env request_bare 0%nat
     = (Normal {| disposition :=
                    RedirectTo {| origin := blog; pathname := "/auth";
                                  searchParams := [("next", "/account/settings")];
                                  hash := EmptyString |} 307;
                  res_cookies := ∅ |},
        {| net := 0%nat; trace := [] |}).
Proof.
  pose (service := counting_service (reply 200 (token_body "T1"))).
  split; [evaluate | split; [evaluate |]].
  apply (no_credentials_redirects_to_login service sample_env request_bare 0%nat);
    evaluate.
Defined.

Lemma present_token_passes_through_witness :
  present (accessToken_of request_signed_in)
  /\ invoke (counting_service (reply 401 JNull)) sample_env request_signed_in 0%nat
     = (Normal {| disposition := PassThrough; res_cookies := ∅ |},
        {| net := 0%nat; trace := [] |}).
Proof.
  split; [evaluate |].
  apply (present_token_passes_through (counting_service (reply 401 JNull)) sample_env
           request_signed_in 0%nat).
  evaluate.
Defined.

Lemma at_most_one_renewal_call_witness :
  let service := counting_service (reply 200 (token_body "T1")) in
  absent (accessToken_of request_to_renew)
  /\ present (refreshToken_of request_to_renew)
  /\ (length (fetch_calls (trace (invoke service sample_env request_to_renew 0%nat).2)) <= 1)%nat
  /\ exists refreshToken,
       req_cookies request_to_renew !! "refresh_token" = Some refreshToken
       /\ fetch_calls (trace (invoke service sample_env request_to_renew 0%nat).2)
          = [ {| fetch_url := "https://api.example.com/auth/refresh";
                 method := "POST";
                 headers := [("Content-Type", "application/json")];
                 body := JSON_stringify [("refresh_token", Some refreshToken)] |} ]
       /\ JSON_read_member (JSON_stringify [("refresh_token", Some refreshToken)])
          = Some ("refresh_token", refreshToken).
Proof.
  intros service.
  destruct (at_most_one_renewal_call service sample_env request_to_renew 0%nat)
    as [Hmost Hone].
  split_and!; [evaluate | evaluate | exact Hmost |].
  apply Hone; evaluate.
Defined.

Lemma renewal_body_sample :
  body (renewal_request sample_env (Some "R1"))
    = String "{" (String quote ("refresh_token" +:+ String quote
        (String ":" (String quote ("R1" +:+ String quote "}"))))).
Proof. reflexivity. Qed.

Lemma guard_writes_only_access_token_witness :
  let service := constant_service (reply 200 (token_body "T1")) in
  let refusing := constant_service (reply 401 (JObject [("detail", JString "Invalid token")])) in
  let login :=
    {| disposition :=
         RedirectTo {| origin := blog; pathname := "/auth";
                       searchParams := [("next", "/account/settings")];
                       hash := EmptyString |} 307;
       res_cookies := ∅ |} in
  (exists response w,
      invoke service sample_env request_to_renew tt = (Normal response, w)
      /\ res_cookies response !! "refresh_token" = None
      /\ dom (res_cookies response) = ({[ "access_token" ]} : gset string)
      /\ disposition response = PassThrough)
  /\ (invoke refusing sample_env request_to_renew tt).1 = Normal login
  /\ (invoke refusing sample_env request_bare tt).1 = Normal login.
Proof.
  intros service refusing login. split_and!.
  - destruct (guard_writes_only_access_token service sample_env request_to_renew tt)
      as (response & w & Hrun & Hrefresh & Hdom & Hwritten & _).
    exists response, w. split_and!; [exact Hrun | exact Hrefresh | |].
    + vm_compute in Hrun. injection Hrun as <- _. evaluate.
    + apply Hwritten. vm_compute in Hrun. injection Hrun as <- _. done.
  - destruct (guard_writes_only_access_token refusing sample_env request_to_renew tt)
      as (response & w & Hrun & _ & _ & _ & _ & _ & _ & _ & Hrenewal).
    rewrite Hrun. cbn [fst]. f_equal.
    destruct Hrenewal as [_ Hfailure]; [evaluate | evaluate |].
    apply Hfailure. intros v (r & data & Hanswer & Hok & _).
    injection Hanswer as <-. discriminate Hok.
  - destruct (guard_writes_only_access_token refusing sample_env request_bare tt)
      as (response & w & Hrun & _ & _ & _ & _ & _ & _ & Hbare & _).
    rewrite Hrun. cbn [fst]. f_equal. apply Hbare; evaluate.
Defined.

(** Two requests with the same cookies and the same requested path, on two
    sites, whose renewal calls are both rejected with a 401: the redirects go
    to two different login URLs. *)
Lemma origin_settles_the_redirect :
  ~ settled_by_cookies_path_outcome.
Proof.
  intros Hclaim.
  specialize (Hclaim unit (constant_service (reply 401 JNull)) sample_env
                (sample_request "https://blog.example.com" {[ "refresh_token" := "R1" ]})
                (sample_request "https://blog.example.org" {[ "refresh_token" := "R1" ]})
                tt tt).
  vm_compute in Hclaim.
  specialize (Hclaim eq_refl eq_refl eq_refl). discriminate Hclaim.
Qed.

Lemma sequential_runs_agree_witness :
  let service := counting_service (reply 200 (token_body "T1")) in
  let first := invoke service sample_env request_to_renew 0%nat in
  let second := invoke service sample_env request_to_renew (net first.2) in
  absent (accessToken_of request_to_renew)
  /\ present (refreshToken_of request_to_renew)
  /\ net first.2 = 1%nat /\ net second.2 = 2%nat
  /\ first.1 = second.1
  /\ (exists response,
        first.1 = Normal response
        /\ second.1 = Normal response
        /\ value <$> res_cookies response !! "access_token" = Some (Some (JString "T1")))
  /\ (invoke service sample_env request_bare 0%nat).1
     = (invoke service sample_env (with_cookie request_bare "theme" "dark") 7%nat).1.
Proof.
  intros service first second.
  destruct (sequential_runs_agree service sample_env) as [Hsequence Hsettled].
  destruct (Hsequence request_to_renew 0%nat
              {| status := 200; json_result := Some (token_body "T1") |}
              [("access_token", JString "T1")] "T1")
    as (Hsame & response & Hfirst & Hsecond & Hcookie & _);
    [evaluate | evaluate | evaluate | evaluate | evaluate | evaluate |].
  split_and!; [evaluate | evaluate | evaluate | evaluate | exact Hsame | |].
  - exists response. split_and!; [exact Hfirst | exact Hsecond | apply Hcookie; evaluate].
  - apply Hsettled; evaluate.
Defined.


Lemma empty_cookie_counts_as_absent_witness :
  let service := counting_service (reply 200 (token_body "T1")) in
  fetch_calls (trace (invoke service sample_env request_empty_access 0%nat).2)
    = [renewal_request sample_env (Some "R1")]
  /\ invoke service sample_env request_empty_access 0%nat
     = invoke service sample_env (without_cookie request_empty_access "access_token") 0%nat
  /\ invoke service sample_env request_empty_both 0%nat
     = invoke service sample_env (without_credentials request_empty_both) 0%nat
  /\ invoke service sample_env request_empty_both 0%nat
     = (Normal {| disposition :=
                    RedirectTo {| origin := blog; pathname := "/auth";
                                  searchParams := [("next", "/account/settings")];
                                  hash := EmptyString |} 307;
                  res_cookies := ∅ |},
        {| net := 0%nat; trace := [] |}).
Proof.
  intros service.
  destruct (empty_cookie_counts_as_absent service sample_env request_empty_access 0%nat)
    as [Hrenew _]; [evaluate |].
  destruct (Hrenew "R1") as [Hcall Hsame]; [evaluate | discriminate |].
  destruct (empty_cookie_counts_as_absent service sample_env request_empty_both 0%nat)
    as [_ Hboth]; [evaluate |].
  destruct Hboth as [Hredirect Hbare]; [evaluate |].
  split_and!; [exact Hcall | exact Hsame | exact Hbare | exact Hredirect].
Defined.

(** A successful answer whose body is [null]: reading [data.access_token]
    throws, and the guard redirects to login. *)
Lemma null_body_redirects :
  ~ success_without_key_passes_through.
Proof.
  intros Hclaim.
  specialize (Hclaim unit (constant_service (reply 200 JNull)) sample_env
                request_to_renew tt {| status := 200; json_result := Some JNull |} JNull).
  assert (Hkey : ~ has_key JNull "access_token")
    by (intros (members & v & Hobject & _); discriminate Hobject).
  specialize (Hclaim eq_refl eq_refl eq_refl eq_refl eq_refl Hkey).
  vm_compute in Hclaim. discriminate Hclaim.
Qed.

Lemma null_body_response :
  (invoke (constant_service (reply 200 JNull)) sample_env request_to_renew tt).1
    = Normal {| disposition :=
                  RedirectTo {| origin := blog; pathname := "/auth";
                                searchParams := [("next", "/account/settings")];
                                hash := EmptyString |} 307;
                res_cookies := ∅ |}.
Proof. evaluate. Qed.

Lemma success_without_token_sets_undefined_witness :
  let service := constant_service (reply 200 (JObject [("token_type", JString "bearer")])) in
  absent (accessToken_of request_to_renew)
  /\ present (refreshToken_of request_to_renew)
  /\ ~ has_key (JObject [("token_type", JString "bearer")]) "access_token"
  /\ (invoke service sample_env request_to_renew tt).1 =
       Normal {| disposition := PassThrough;
                 res_cookies :=
                   {[ "access_token" :=
                        {| value := None; path := Some "/"; domain := None;
                           secure := Some true; httpOnly := None;
                           sameSite := Some Strict; maxAge := None |} ]} |}.
Proof.
  intros service.
  assert (Hkey : ~ has_key (JObject [("token_type", JString "bearer")]) "access_token").
  { intros (members & v & Hobject & Hmember). injection Hobject as <-.
    vm_compute in Hmember. discriminate Hmember. }
  split_and!; [evaluate | evaluate | exact Hkey |].
  apply (success_without_token_sets_undefined service sample_env request_to_renew tt
           {| status := 200;
              json_result := Some (JObject [("token_type", JString "bearer")]) |}
           (JObject [("token_type", JString "bearer")]));
    try evaluate; [discriminate | exact Hkey].
Defined.

(** ** The guard: every outcome, and what is logged *)

Section GuardOutcomes.

Context {Net : Type}.
Variable transport : FetchRequest -> Net -> FetchOutcome * Net.
Variable env : gmap string string.

(** X1. A run of the guard ends in one of four ways and in no other: the
    bare pass-through and the login redirect without credentials, both
    without any effect; the pass-through with the [access_token] cookie after
    one call; the login redirect after one call followed by one logged
    error.  Nothing thrown escapes, no other response is produced, and the
    network is moved by that one call at most. *)
Theorem guard_outcomes request n :
  let rq := renewal_request env (refreshToken_of request) in
  let after := (transport rq n).2 in
  let login :=
    {| disposition :=
         RedirectTo {| origin := origin (url request); pathname := "/auth";
                       searchParams := [("next", pathname (nextUrl request))];
                       hash := EmptyString |} 307;
       res_cookies := ∅ |} in
  (present (accessToken_of request)
   /\ invoke transport env request n
      = (Normal {| disposition := PassThrough; res_cookies := ∅ |},
         {| net := n; trace := [] |}))
  \/ (absent (accessToken_of request) /\ absent (refreshToken_of request)
      /\ invoke transport env request n = (Normal login, {| net := n; trace := [] |}))
  \/ (absent (accessToken_of request) /\ present (refreshToken_of request)
      /\ exists v,
           invoke transport env request n
           = (Normal {| disposition := PassThrough;
                        res_cookies := {[ "access_token" := access_cookie v ]} |},
              {| net := after; trace := [Fetched rq] |}))
  \/ (absent (accessToken_of request) /\ present (refreshToken_of request)
      /\ exists e,
           invoke transport env request n
           = (Normal login,
              {| net := after;
                 trace := [Fetched rq; ConsoleError "Token refresh failed:" e] |})).
Proof.
  intros rq after login. unfold invoke.
  destruct (truthy (accessToken_of request)) eqn:Ha.
  - left. rewrite middleware_present by done. done.
  - destruct (truthy (refreshToken_of request)) eqn:Hr.
    + rewrite middleware_renewal by done. cbn zeta. cbn [net trace].
      fold rq. fold after.
      destruct (renewal_of (transport rq n).1) as [v | e].
      * right. right. left. split_and!; [done | done |]. by exists v.
      * right. right. right. split_and!; [done | done |]. by exists e.
    + right. left. rewrite middleware_no_credentials by done. done.
Qed.

(** X2. A body that is the JSON value [null] is a failed renewal whatever
    the status: reading a property of it throws, the guard logs that error
    (on [access_token] after a success status, on [detail] otherwise) and
    redirects to login without a cookie. *)
Theorem null_body_is_a_failed_renewal request n r :
  absent (accessToken_of request) ->
  present (refreshToken_of request) ->
  (transport (renewal_request env (refreshToken_of request)) n).1 = Resolves r ->
  json_result r = Some JNull ->
  invoke transport env request n
    = (Normal {| disposition :=
                   RedirectTo {| origin := origin (url request); pathname := "/auth";
                                 searchParams := [("next", pathname (nextUrl request))];
                                 hash := EmptyString |} 307;
                 res_cookies := ∅ |},
       {| net := (transport (renewal_request env (refreshToken_of request)) n).2;
          trace := [Fetched (renewal_request env (refreshToken_of request));
                    ConsoleError "Token refresh failed:"
                      (NullProperty (if ok r then "access_token" else "detail"))] |}).
Proof.
  intros Ha Hr Hcall Hbody. unfold invoke.
  rewrite middleware_renewal by done. cbn zeta. cbn [net trace].
  rewrite Hcall. cbn. rewrite Hbody. by destruct (ok r).
Qed.


(** X4. The value of [access_token] in a successful answer is not checked
    for its type: whatever JSON value the member holds (a number, [false],
    [null], an object) becomes the value of the cookie, provided it can be
    serialised.  A value without a text (an object with a member [toString]
    of its own, alone or in an array) or with an unpaired surrogate in its
    text makes [cookies.set] throw: the guard logs that and redirects to
    login without a cookie.  When the body repeats the member the last one
    counts. *)
Theorem renewed_cookie_is_unchecked request n r members (v : Json) :
  absent (accessToken_of request) ->
  present (refreshToken_of request) ->
  (transport (renewal_request env (refreshToken_of request)) n).1 = Resolves r ->
  ok r = true ->
  json_result r = Some (JObject members) ->
  own_property members "access_token" = Some v ->
  (forall earlier,
      own_property (earlier ++ members)%list "access_token" = Some v)
  /\ (encodeURIComponent_throws (Some v) = None ->
      (invoke transport env request n).1
      = Normal {| disposition := PassThrough;
                  res_cookies :=
                    {[ "access_token" :=
                         {| value := Some v; path := Some "/"; domain := None;
                            secure := Some true; httpOnly := None;
                            sameSite := Some Strict; maxAge := None |} ]} |})
  /\ (forall e,
        encodeURIComponent_throws (Some v) = Some e ->
        invoke transport env request n
        = (Normal {| disposition :=
                       RedirectTo {| origin := origin (url request); pathname := "/auth";
                                     searchParams := [("next", pathname (nextUrl request))];
                                     hash := EmptyString |} 307;
                     res_cookies := ∅ |},
           {| net := (transport (renewal_request env (refreshToken_of request)) n).2;
              trace := [Fetched (renewal_request env (refreshToken_of request));
                        ConsoleError "Token refresh failed:" e] |})).
Proof.
  intros Ha Hr Hcall Hok Hbody Hv. split_and!.
  - intros earlier. induction earlier as [|[k w] earlier IH]; [done |].
    cbn. by rewrite IH.
  - intros Hvalue.
    rewrite (invoke_renewed transport env request n r members);
      [by rewrite Hv | done | done | done | done | done | by rewrite Hv].
  - intros e Hvalue.
    rewrite (invoke_bad_value transport env request n r members e);
      [done | done | done | done | done | done | by rewrite Hv].
Qed.

(** X5. The guard reads nothing of the request but the two cookies, the
    origin of its URL and the path: two requests that agree on these, and
    differ in query string, fragment or anything else, run alike, response
    and effects. *)
Theorem guard_ignores_query_and_hash request1 request2 n :
  req_cookies request1 = req_cookies request2 ->
  origin (url request1) = origin (url request2) ->
  pathname (nextUrl request1) = pathname (nextUrl request2) ->
  invoke transport env request1 n = invoke transport env request2 n.
Proof.
  intros Hcookies Horigin Hpath. unfold invoke.
  assert (Haccess : accessToken_of request1 = accessToken_of request2)
    by (by rewrite !accessToken_of_lookup, Hcookies).
  assert (Hrefresh : refreshToken_of request1 = refreshToken_of request2)
    by (by rewrite !refreshToken_of_lookup, Hcookies).
  assert (Hlogin : loginUrl_of request1 = loginUrl_of request2)
    by (by rewrite !loginUrl_of_eq, Hpath, Horigin).
  destruct (truthy (accessToken_of request2)) eqn:Ha.
  - rewrite !middleware_present; [done | done | by unfold present; rewrite Haccess].
  - destruct (truthy (refreshToken_of request2)) eqn:Hr.
    + rewrite !middleware_renewal;
        [| done | done | by unfold absent; rewrite Haccess
         | by unfold present; rewrite Hrefresh].
      by rewrite Hrefresh, Hlogin.
    + rewrite !middleware_no_credentials;
        [| done | done | by unfold absent; rewrite Haccess
         | by unfold absent; rewrite Hrefresh].
      by rewrite Hlogin.
Qed.

(** X6. With [NEXT_PUBLIC_API_URL] unset the guard still attempts the
    renewal: the call goes to the text ["undefined/auth/refresh"]. *)
Theorem unset_api_url_is_called_as_undefined request n :
  env !! "NEXT_PUBLIC_API_URL" = None ->
  absent (accessToken_of request) ->
  present (refreshToken_of request) ->
  fetch_url <$> fetch_calls (trace (invoke transport env request n).2)
    = ["undefined/auth/refresh"].
Proof.
  intros Henv Ha Hr. rewrite renewal_calls by done. cbn. by rewrite Henv.
Qed.

End GuardOutcomes.

(** X7. The body of the renewal call determines the credential: two
    credentials with the same body are the same, whatever quotes,
    backslashes or control characters they hold. *)
Theorem renewal_body_determines_token (env : gmap string string) (token1 token2 : string) :
  token1 <> token2 ->
  body (renewal_request env (Some token1)) <> body (renewal_request env (Some token2)).
Proof.
  intros Hne Hbody. apply Hne.
  apply (f_equal JSON_read_member) in Hbody. cbn [body renewal_request] in Hbody.
  rewrite !JSON_read_stringify in Hbody. by injection Hbody.
Qed.

(** ** Objects written by [JSON.stringify] read back *)

Lemma JSON_member_texts members :
  omap JSON_member members = member_text <$> defined_members members.
Proof.
  induction members as [|[k [v|]] members IH]; cbn; [done | | done].
  by rewrite IH.
Qed.

Lemma append_length (a b : string) :
  String.length (a +:+ b) = (String.length a + String.length b)%nat.
Proof.
  induction a as [|x a IH]; [reflexivity |].
  rewrite append_cons. cbn [String.length]. by rewrite IH.
Qed.

Lemma join_length (texts : list string) :
  (forall t, In t texts -> (1 <= String.length t)%nat) ->
  (List.length texts <= String.length (join "," texts))%nat.
Proof.
  induction texts as [|t texts IH]; intros Hpos; [cbn; lia |].
  assert (Ht : (1 <= String.length t)%nat) by (apply Hpos; by left).
  assert (Hrest : (List.length texts <= String.length (join "," texts))%nat)
    by (apply IH; intros t' Ht'; apply Hpos; by right).
  destruct texts as [|u texts]; [cbn [join List.length]; lia |].
  change (join "," (t :: u :: texts)) with (t +:+ "," +:+ join "," (u :: texts)).
  rewrite !append_length. cbn [List.length] in *. lia.
Qed.

Lemma JSON_read_member_texts members : forall m fuel,
  (List.length members < fuel)%nat ->
  JSON_read_members fuel (join "," (member_text <$> (m :: members)) +:+ "}")
    = Some (m :: members).
Proof.
  induction members as [|m' members IH]; intros [k v] fuel Hfuel.
  - destruct fuel as [|fuel]; [cbn in Hfuel; lia |].
    cbn [fmap list_fmap join JSON_read_members]. unfold member_text. cbn [fst snd].
    rewrite !append_assoc, JSON_read_quote.
    change (":" +:+ JSON_quote v +:+ "}") with (String ":" (JSON_quote v +:+ "}")).
    cbn iota. by rewrite JSON_read_quote.
  - destruct fuel as [|fuel]; [cbn in Hfuel; lia |].
    change (join "," (member_text <$> (k, v) :: m' :: members))
      with (member_text (k, v) +:+ "," +:+ join "," (member_text <$> m' :: members)).
    cbn [JSON_read_members]. unfold member_text at 1. cbn [fst snd].
    rewrite !append_assoc, JSON_read_quote.
    change (":" +:+ JSON_quote v +:+ "," +:+
              join "," (member_text <$> m' :: members) +:+ "}")
      with (String ":" (JSON_quote v +:+ String ","
              (join "," (member_text <$> m' :: members) +:+ "}"))).
    cbn iota. rewrite JSON_read_quote. cbn iota.
    rewrite IH; [done | cbn in Hfuel; lia].
Qed.

Lemma JSON_stringify_round_trip_members (members : list (string * option string)) :
  JSON_read_object (JSON_stringify members) = Some (defined_members members).
Proof.
  unfold JSON_stringify. rewrite JSON_member_texts.
  destruct (defined_members members) as [|m ms] eqn:Hdefined; [reflexivity |].
  change ("{" +:+ join "," (member_text <$> m :: ms) +:+ "}")
    with (String "{" (join "," (member_text <$> m :: ms) +:+ "}")).
  assert (Hhead : exists tail,
             join "," (member_text <$> m :: ms) +:+ "}" = String quote tail).
  { destruct ms; eexists; reflexivity. }
  destruct Hhead as [tail Hhead].
  unfold JSON_read_object. rewrite Hhead.
  change (match String quote tail with
          | String "}" EmptyString => Some []
          | _ => JSON_read_members
                   (String.length (String "{" (String quote tail))) (String quote tail)
          end)
    with (JSON_read_members
            (String.length (String "{" (String quote tail))) (String quote tail)).
  rewrite <- Hhead. apply JSON_read_member_texts.
  cbn [String.length]. rewrite append_length.
  pose proof (join_length (member_text <$> m :: ms)) as Hlen.
  rewrite length_fmap in Hlen. cbn [List.length] in *.
  assert (forall t, In t (member_text <$> m :: ms) -> (1 <= String.length t)%nat).
  { intros t Ht. apply list_elem_of_In, list_elem_of_fmap in Ht as (m0 & -> & _).
    unfold member_text, JSON_quote. rewrite append_cons. cbn [String.length]. lia. }
  specialize (Hlen H). lia.
Qed.

(** X8. Reading back the object that [JSON.stringify] writes gives the
    members whose value is defined, names and values intact and in order: an
    [undefined] member is left out, and nothing in a name or a value (quotes,
    backslashes, control characters, commas, braces) upsets the reading. *)
Theorem JSON_stringify_round_trip (members : list (string * option string)) :
  JSON_read_object (JSON_stringify members)
    = Some (omap (fun m => pair m.1 <$> m.2) members).
Proof. apply JSON_stringify_round_trip_members. Qed.

(** ** The typewriter: what it shows *)

Section TypewriterFacts.

Context {CodeUnit : Type} `{EqDecision CodeUnit}.
Implicit Types (text : list (list CodeUnit)) (s : @TypewriterState CodeUnit).

Lemma tick_keeps_prefix text s :
  shows_prefix text s ->
  exists s' pause, tick text s = Ticked s' pause /\ shows_prefix text s'.
Proof.
  intros (i & current & Hi & Hcurrent & Hprefix). unfold tick.
  rewrite Hi. cbn [mbind option_bind]. rewrite Hcurrent.
  destruct (isDeleting s).
  - destruct (decide (currentText s = [])) as [Hempty | Hsome].
    + do 2 eexists. split; [reflexivity |].
      assert (Hlen : (i < length text)%nat) by (by eapply lookup_lt_Some).
      destruct (length text) as [|len] eqn:Hlength; [lia |].
      assert (Hnext : ((i + 1) mod S len < length text)%nat)
        by (rewrite Hlength; apply Nat.mod_upper_bound; lia).
      apply lookup_lt_is_Some_2 in Hnext as [next Hnext].
      exists ((i + 1) mod S len)%nat, next. cbn.
      split_and!; [done | done |]. rewrite Hempty. cbn. apply prefix_nil.
    + do 2 eexists. split; [reflexivity |].
      exists i, current. cbn. split_and!; [done | done |].
      etrans; [apply prefix_take | done].
  - do 2 eexists. split; [reflexivity |].
    exists i, current. cbn. split_and!; [done | done |]. apply prefix_take.
Qed.

(** X9. With at least one text to show, the typewriter always shows a
    beginning of the text of the current index, the index stays within the
    list, and the timer callback never throws: whatever the order in which
    callbacks and pauses come. *)
Theorem typewriter_shows_a_prefix text s :
  text <> [] ->
  typewriter_reaches text s ->
  shows_prefix text s /\ tick text s <> TickThrows.
Proof.
  intros Htext Hreach.
  assert (Hshows : shows_prefix text s).
  { induction Hreach as [| s s' pause _ IH Htick | s _ IH].
    - destruct text as [|first text]; [done |].
      exists 0%nat, first. cbn. split_and!; [done | done | apply prefix_nil].
    - destruct (tick_keeps_prefix text s IH) as (s1 & p1 & Htick1 & Hshows1).
      rewrite Htick in Htick1. by injection Htick1 as <- _.
    - destruct IH as (i & current & ? & ? & ?). by exists i, current. }
  split; [done |].
  destruct (tick_keeps_prefix text s Hshows) as (s1 & p1 & -> & _). done.
Qed.

(** X10. Without a text at the current index the callback throws while
    typing ([current] is [undefined]); with an empty list of texts no run of
    callbacks gets anywhere from the start. *)
Theorem typewriter_throws_without_text text s :
  (isDeleting s = false ->
   currentIndex s ≫= (text !!.) = None ->
   tick text s = TickThrows)
  /\ (forall n, ticks (@nil (list CodeUnit)) (S n) typewriter_start = None).
Proof.
  split.
  - intros Htyping Hnone. unfold tick. by rewrite Htyping, Hnone.
  - intros n. reflexivity.
Qed.

Lemma tick_typing text i current k :
  text !! i = Some current ->
  (k <= length current)%nat ->
  tick text (typing i (take k current))
    = Ticked (typing i (take (k + 1) current)) (bool_decide (k = length current)).
Proof.
  intros Hcurrent Hk. unfold tick, typing. cbn. rewrite Hcurrent.
  rewrite length_take, Nat.min_l by done. f_equal.
  apply bool_decide_ext. split.
  - intros Hsame. apply (f_equal length) in Hsame.
    rewrite length_take in Hsame. lia.
  - intros ->. apply firstn_all.
Qed.

Lemma ticks_typing text i current : forall k j,
  text !! i = Some current ->
  (j + k <= length current)%nat ->
  ticks text k (typing i (take j current)) = Some (typing i (take (j + k) current)).
Proof.
  induction k as [|k IH]; intros j Hcurrent Hk.
  - cbn. by rewrite Nat.add_0_r.
  - cbn [ticks]. rewrite (tick_typing text i current j) by (done || lia).
    rewrite IH by (done || lia). do 3 f_equal. lia.
Qed.

(** X11. Typing spells the text one code unit per callback: from the empty
    screen, as many callbacks as the text is long show the whole text; only
    the callback that finds the whole text on the screen starts the pause,
    and it changes nothing. *)
Theorem typing_spells_the_text text i current :
  text !! i = Some current ->
  ticks text (length current) (typing i []) = Some (typing i current)
  /\ tick text (typing i current) = Ticked (typing i current) true
  /\ (forall k, (k < length current)%nat ->
        tick text (typing i (take k current))
          = Ticked (typing i (take (k + 1) current)) false).
Proof.
  intros Hcurrent. split_and!.
    pose proof (ticks_typing text i current (length current) 0 Hcurrent) as Hrun.
    cbn [take Nat.add] in Hrun. rewrite firstn_all in Hrun.
    destruct current; apply Hrun; cbn; lia.
  - pose proof (tick_typing text i current (length current) Hcurrent) as Hstep.
    rewrite firstn_all in Hstep. rewrite Hstep by lia.
    rewrite take_ge by lia. by rewrite bool_decide_eq_true_2.
  - intros k Hk. rewrite (tick_typing text i current k) by (done || lia).
    by rewrite bool_decide_eq_false_2 by lia.
Qed.

Lemma ticks_deleting text i : forall n shown,
  length shown = n ->
  ticks text (n + 1) (deleting i shown)
    = Some {| currentText := []; currentIndex := next_index (Some i) (length text);
              isDeleting := false |}.
Proof.
  induction n as [|n IH]; intros shown Hlen.
  - destruct shown; [|done]. reflexivity.
  - cbn [Nat.add ticks]. unfold tick. cbn [isDeleting deleting currentText currentIndex].
    destruct (decide (shown = [])) as [-> | _]; [done |].
    apply IH. rewrite length_take. lia.
Qed.

(** X12. After the pause, deleting takes one callback per code unit and one
    more, and leaves the empty screen of the next text, the first one after
    the last: the texts come round in order. *)
Theorem deleting_moves_to_the_next_text text i current :
  text !! i = Some current ->
  ticks text (length current + 1) (pause_elapsed (typing i current))
    = Some (typing ((i + 1) mod length text) []).
Proof.
  intros Hcurrent.
  change (pause_elapsed (typing i current)) with (deleting i current).
  rewrite (ticks_deleting text i (length current) current) by done.
  assert (Hlen : (i < length text)%nat) by (by eapply lookup_lt_Some).
  unfold next_index. destruct (length text); [lia | done].
Qed.

End TypewriterFacts.

(** ** The sign-in page: what its handlers do *)

Lemma or_else_truthy (a : JsValue) (b : Json) :
  truthy b = true -> truthy (or_else a b) = true.
Proof.
  intros Hb. unfold or_else. destruct a as [v|]; [|done].
  by destruct (truthy v) eqn:Hv.
Qed.

Lemma get_property_defined data key :
  data <> JNull -> exists v, get_property data key = Normal v.
Proof. destruct data; intros Hdata; try done; eexists; reflexivity. Qed.

Module AuthPageFacts.

Import AuthPage.

Section Facts.

Context {Net : Type}.
Variable transport : FetchRequest -> Net -> FetchOutcome * Net.
Variable env : gmap string string.
Variable engine_message : Exn -> string.

Ltac login_failure :=
  split_and!;
  [ done
  | done
  | by (intros ???? ? ? ? ? ? ?; simplify_eq; congruence)
  | by (intros _; split; [done | eauto])
  | by intros [] ].

Lemma login_run s n :
  run_handler (handleLogin transport env engine_message s) s n =
    let rq := post_json env "/auth/login"
                [("email", Some (email s)); ("password", Some (password s))] in
    let cleared := setMessage None (setError None s) in
    let ends (p : State) (asked : list BrowserEvent) : Completion unit * @Client Net State :=
      (Normal tt, {| page := p;
                     world := {| net := (transport rq n).2; trace := [Fetched rq] |};
                     browser := asked |}) in
    let fails (e : Exn) := ends (setError (Some (error_message engine_message e)) cleared) in
    match answer_of "Login failed" (transport rq n).1 with
    | Throw e => fails e []
    | Normal data =>
        match get_property data "access_token" with
        | Throw e => fails e []
        | Normal access =>
            match encodeURIComponent_throws access with
            | Some e => fails e []
            | None =>
                match get_property data "refresh_token" with
                | Throw e => fails e [CookiesSet "access_token" (login_cookie access 1)]
                | Normal refresh =>
                    match encodeURIComponent_throws refresh with
                    | Some e =>
                        fails e [CookiesSet "access_token" (login_cookie access 1)]
                    | None =>
                        ends cleared
                          [CookiesSet "access_token" (login_cookie access 1);
                           CookiesSet "refresh_token" (login_cookie refresh 7);
                           RouterPush "/"]
                    end
                end
            end
        end
    end.
Proof.
  unfold run_handler, handleLogin, page_try_catch, mbind, Page_bind, await, fetch,
    set_state, throw_unless_ok, answer_of. cbn [page world browser net trace].
  destruct (transport _ n) as [[r | reason] n']; cbn [fst snd]; [| reflexivity].
  unfold json. destruct (json_result r) as [data|]; cbn; [| reflexivity].
  destruct (ok r); cbn.
  - unfold page_lift, Cookies_set, page_throw, ask_browser.
    destruct (get_property data "access_token") as [access | e]; cbn; [| reflexivity].
    destruct (encodeURIComponent_throws access); cbn; [reflexivity |].
    destruct (get_property data "refresh_token") as [refresh | e]; cbn; [| reflexivity].
    destruct (encodeURIComponent_throws refresh); reflexivity.
  - unfold page_lift, mbind, Page_bind. cbn.
    destruct (get_property data "detail"); reflexivity.
Qed.

(** X13. Signing in makes exactly one call and throws nothing.  After an
    answer with a status in 200-299 and a JSON body whose [access_token] can
    be written, the [access_token] cookie is written (1 day, secure,
    same-site strict); when [refresh_token] can be written too, it is written
    (7 days) and the page navigates to ['/'] with error and message cleared;
    when writing [refresh_token] throws (its text has an unpaired surrogate,
    or it has no text), the [access_token] cookie stays written alone, the
    error is set and the page does not navigate.  In every other case no
    cookie is written, the page does not navigate and the error is set. *)
Theorem login_outcomes s n :
  let rq := post_json env "/auth/login"
              [("email", Some (email s)); ("password", Some (password s))] in
  let run := run_handler (handleLogin transport env engine_message s) s n in
  let cleared := setMessage None (setError None s) in
  let access_cookie_of (v : JsValue) :=
    CookiesSet "access_token"
      {| jar_value := v; jar_expires := Some 1;
         jar_secure := Some true; jar_sameSite := Some Strict |} in
  let refresh_cookie_of (v : JsValue) :=
    CookiesSet "refresh_token"
      {| jar_value := v; jar_expires := Some 7;
         jar_secure := Some true; jar_sameSite := Some Strict |} in
  run.1 = Normal tt
  /\ trace (world run.2) = [Fetched rq]
  /\ (forall r data access refresh,
        (transport rq n).1 = Resolves r -> ok r = true -> json_result r = Some data ->
        get_property data "access_token" = Normal access ->
        get_property data "refresh_token" = Normal refresh ->
        encodeURIComponent_throws access = None ->
        (encodeURIComponent_throws refresh = None ->
         browser run.2 = [access_cookie_of access; refresh_cookie_of refresh; RouterPush "/"]
         /\ page run.2 = cleared)
        /\ (forall e,
              encodeURIComponent_throws refresh = Some e ->
              browser run.2 = [access_cookie_of access]
              /\ page run.2 = setError (Some (error_message engine_message e)) cleared))
  /\ (~ (exists r data access,
           (transport rq n).1 = Resolves r /\ ok r = true /\ json_result r = Some data
           /\ get_property data "access_token" = Normal access
           /\ encodeURIComponent_throws access = None) ->
      browser run.2 = []
      /\ exists text, page run.2 = setError (Some text) cleared)
  /\ (In (RouterPush "/") (browser run.2) ->
      page run.2 = cleared
      /\ exists access refresh,
           browser run.2
           = [access_cookie_of access; refresh_cookie_of refresh; RouterPush "/"]).
Proof.
  intros rq run cleared access_cookie_of refresh_cookie_of. subst run.
  rewrite login_run. cbn zeta. fold rq. fold cleared. unfold answer_of.
  destruct (transport rq n).1 as [r | reason] eqn:Hcall; [| login_failure].
  destruct (json_result r) as [data|] eqn:Hbody; [| login_failure].
  destruct (ok r) eqn:Hok;
    [| destruct (get_property data "detail"); login_failure].
  destruct (get_property data "access_token") as [access | e] eqn:Haccess;
    [| login_failure].
  destruct (encodeURIComponent_throws access) as [e |] eqn:Hwrite;
    [login_failure |].
  assert (Hfirst : exists r0 data0 access0,
             Resolves r = Resolves r0 /\ ok r0 = true /\ json_result r0 = Some data0
             /\ get_property data0 "access_token" = Normal access0
             /\ encodeURIComponent_throws access0 = None)
    by (by exists r, data, access).
  destruct (get_property data "refresh_token") as [refresh | e] eqn:Hrefresh;
    [| by destruct data].
  destruct (encodeURIComponent_throws refresh) as [e |] eqn:Hwrite2.
  - split_and!; [done | done | | by intros [] | by intros [? | []]].
    intros r0 data0 access0 refresh0 ? _ ? ? ? _. simplify_eq.
    assert (access0 = access) as -> by congruence.
    assert (refresh0 = refresh) as -> by congruence.
    split; [congruence |].
    intros e0 He0. assert (e0 = e) as -> by congruence. done.
  - split_and!; [done | done | | by intros [] | ].
    + intros r0 data0 access0 refresh0 ? _ ? ? ? _. simplify_eq.
      assert (access0 = access) as -> by congruence.
      assert (refresh0 = refresh) as -> by congruence.
      split; [done |].
      intros e0 He0. congruence.
    + intros _. split; [done |]. by exists access, refresh.
Qed.

(** X14. The error shown after a failed sign-in: the reason of a call that
    could not be made; the body's [detail] when the service answers outside
    200-299 with a non-empty string there; ['Login failed'] when the answer
    has no [detail]. *)
Theorem login_error_text s n :
  let rq := post_json env "/auth/login"
              [("email", Some (email s)); ("password", Some (password s))] in
  let run := run_handler (handleLogin transport env engine_message s) s n in
  (forall reason,
      (transport rq n).1 = Rejects reason -> error (page run.2) = Some reason)
  /\ (forall r members,
        (transport rq n).1 = Resolves r -> ok r = false ->
        json_result r = Some (JObject members) ->
        (forall detail,
            own_property members "detail" = Some (JString detail) ->
            detail <> EmptyString ->
            error (page run.2) = Some detail)
        /\ (own_property members "detail" = None ->
            error (page run.2) = Some "Login failed")).
Proof.
  intros rq run. subst run.
  unfold run_handler, handleLogin, page_try_catch, mbind, Page_bind, await, fetch,
    set_state, throw_unless_ok. cbn [page world browser net trace]. fold rq.
  destruct (transport rq n) as [[r | reason] n'] eqn:Hcall; cbn [fst snd]; split.
  - intros reason Hr. discriminate Hr.
  - intros r0 members Hr Hok Hbody. injection Hr as <-.
    unfold json. rewrite Hbody. cbn. rewrite Hok. cbn.
    unfold page_lift, mbind, Page_bind. cbn. split.
    + intros detail -> Hne. cbn. by destruct detail.
    + by intros ->.
  - by intros reason0 [= <-].
  - intros r0 members Hr. discriminate Hr.
Qed.

Lemma register_run s n :
  run_handler (handleRegister transport env engine_message s) s n =
    let rq := post_json env "/auth/register"
                [("email", Some (email s)); ("password", Some (password s));
                 ("username", Some (username s)); ("first_name", Some (firstName s));
                 ("last_name", Some (lastName s))] in
    let cleared := setMessage None (setError None s) in
    let ends (p : State) : Completion unit * @Client Net State :=
      (Normal tt, {| page := p;
                     world := {| net := (transport rq n).2; trace := [Fetched rq] |};
                     browser := [] |}) in
    let fails (e : Exn) := ends (setError (Some (error_message engine_message e)) cleared) in
    match answer_of "Registration failed" (transport rq n).1 with
    | Throw e => fails e
    | Normal data =>
        match get_property data "message" with
        | Throw e => fails e
        | Normal text =>
            ends (setIsLogin true
                    (setMessage
                       (Some (or_else text
                                (JString "Registration successful. Please check your email to verify your account.")))
                       cleared))
        end
    end.
Proof.
  unfold run_handler, handleRegister, page_try_catch, mbind, Page_bind, await, fetch,
    set_state, throw_unless_ok, answer_of. cbn [page world browser net trace].
  destruct (transport _ n) as [[r | reason] n']; cbn [fst snd]; [| reflexivity].
  unfold json. destruct (json_result r) as [data|]; cbn; [| reflexivity].
  destruct (ok r); cbn.
  - unfold page_lift. destruct (get_property data "message"); reflexivity.
  - unfold page_lift, mbind, Page_bind. cbn.
    destruct (get_property data "detail"); reflexivity.
Qed.

(** X15. Registering makes exactly one call, throws nothing, never writes a
    cookie and never navigates.  After an answer with a status in 200-299 and
    a JSON body other than [null], it switches to the sign-in form and shows
    the body's [message] when that is truthy and the stock text otherwise, so
    the message shown is never empty.  After an answer in 200-299 whose body
    is [null], the reading of [message] throws and the error is set.  In
    every case other than the first (a call that could not be made, a body
    that is not JSON or is [null], a status outside 200-299) it stays on the
    form it was on and sets the error. *)
Theorem register_outcomes s n :
  let rq := post_json env "/auth/register"
              [("email", Some (email s)); ("password", Some (password s));
               ("username", Some (username s)); ("first_name", Some (firstName s));
               ("last_name", Some (lastName s))] in
  let run := run_handler (handleRegister transport env engine_message s) s n in
  let cleared := setMessage None (setError None s) in
  let stock :=
    JString "Registration successful. Please check your email to verify your account." in
  run.1 = Normal tt
  /\ browser run.2 = []
  /\ trace (world run.2) = [Fetched rq]
  /\ (forall r data,
        (transport rq n).1 = Resolves r -> ok r = true -> json_result r = Some data ->
        data <> JNull ->
        exists text,
          get_property data "message" = Normal text
          /\ page run.2 = setIsLogin true (setMessage (Some (or_else text stock)) cleared)
          /\ truthy (or_else text stock) = true)
  /\ (forall r,
        (transport rq n).1 = Resolves r -> ok r = true -> json_result r = Some JNull ->
        page run.2
        = setError (Some (error_message engine_message (NullProperty "message"))) cleared)
  /\ (~ (exists r data,
           (transport rq n).1 = Resolves r /\ ok r = true /\ json_result r = Some data
           /\ data <> JNull) ->
      exists text,
        page run.2 = setError (Some text) cleared
        /\ isLogin (page run.2) = isLogin s).
Proof.
  intros rq run cleared stock. subst run.
  rewrite register_run. cbn zeta. fold rq. fold cleared. fold stock. unfold answer_of.
  destruct (transport rq n).1 as [r | reason] eqn:Hcall;
    [| split_and!; [done | done | done | done | done | by (intros _; eauto)]].
  destruct (json_result r) as [data|] eqn:Hbody;
    [| split_and!;
       [done | done | done | by (intros ?? [= <-]; congruence)
       | by (intros ? [= <-]; congruence) | by (intros _; eauto)]].
  destruct (ok r) eqn:Hok;
    [| destruct (get_property data "detail");
       (split_and!;
        [done | done | done | by (intros ?? [= <-]; congruence)
        | by (intros ? [= <-]; congruence) | by (intros _; eauto)])].
  destruct (get_property data "message") as [text | e] eqn:Hmessage.
  - assert (Hdata : data <> JNull) by (by intros ->).
    split_and!; [done | done | done | | | ].
    + intros r0 data0 [= <-] _ Hdata0 _.
      assert (data0 = data) as -> by congruence.
      exists text. split_and!; [done | done | by apply or_else_truthy].
    + intros r0 [= <-] _ Hnull. congruence.
    + intros Hnone. destruct Hnone. by exists r, data.
  - assert (data = JNull /\ e = NullProperty "message") as [-> ->]
      by (destruct data; by simplify_eq/=).
    split_and!; [done | done | done | | done | by (intros _; eauto)].
    intros r0 data0 [= <-] _ Hdata0 Hnot. congruence.
Qed.

(** X16. Asking for a reset link shows exactly the body's [message] after an
    answer in 200-299 with an object body, with no stock text: when the body
    has no [message] the page shows neither a message nor an error. *)
Theorem forgot_password_shows_the_message_or_nothing s n r members :
  (transport (post_json env "/auth/forgot-password" [("email", Some (email s))]) n).1
    = Resolves r ->
  ok r = true ->
  json_result r = Some (JObject members) ->
  let run := run_handler (handleForgotPassword transport env engine_message s) s n in
  message (page run.2) = own_property members "message"
  /\ error (page run.2) = None
  /\ browser run.2 = [].
Proof.
  intros Hcall Hok Hbody run. subst run.
  unfold run_handler, handleForgotPassword, page_try_catch, mbind, Page_bind, await,
    fetch, set_state, throw_unless_ok. cbn [page world browser net trace].
  destruct (transport _ n) as [outcome n'] eqn:Hrun. cbn [fst] in Hcall. subst outcome.
  unfold json. rewrite Hbody. cbn. rewrite Hok. cbn. done.
Qed.

End Facts.

End AuthPageFacts.

(** ** The page that sets a new password: what it does *)

Module ResetPasswordPageFacts.

Import ResetPasswordPage.

Lemma plus_to_space_truthy text : truthy (plus_to_space text) = truthy text.
Proof. by destruct text. Qed.

Lemma plus_to_space_length text :
  String.length (plus_to_space text) = String.length text.
Proof. induction text as [|c text IH]; cbn; [done | by rewrite IH]. Qed.

Lemma plus_to_space_no_plus text :
  ~ In "+"%char (list_ascii_of_string (plus_to_space text)).
Proof.
  induction text as [|c text IH]; cbn; [tauto |].
  intros [Hhead | Htail]; [| tauto].
  destruct (Ascii.eqb c "+") eqn:Hc; [discriminate Hhead |].
  apply Ascii.eqb_neq in Hc. congruence.
Qed.

Lemma tokens_found_none s :
  tokens_found s = None
  <-> truthy (accessToken s) = false \/ truthy (refreshToken s) = false.
Proof.
  unfold tokens_found.
  destruct (accessToken s) as [access|]; [| split; [by left | done]].
  destruct (refreshToken s) as [refresh|]; [| split; [by right | done]].
  change (truthy (Some access)) with (truthy access).
  change (truthy (Some refresh)) with (truthy refresh).
  destruct (truthy access), (truthy refresh); cbn [negb orb];
    split; intros H; try done; try (by left); try (by right); by destruct H.
Qed.

Section Facts.

Context {Net : Type}.
Variable transport : FetchRequest -> Net -> FetchOutcome * Net.
Variable env : gmap string string.
Variable engine_message : Exn -> string.
Variable URLSearchParams : string -> list (string * string).

(** X17. Opening the page settles the link: verifying ends in every case.
    The form is shown exactly when the fragment has no (non-empty)
    [error_description] and has both tokens non-empty, and then the page
    holds these two tokens.  An [error_description] wins over tokens that
    are there: it is shown with every [+] turned into a space (same length,
    no [+] left) and no token is kept. *)
Theorem verify_link_outcome hash :
  let params := URLSearchParams (substring_1 hash) in
  let s := verify_link URLSearchParams hash initial in
  isVerifying s = false
  /\ (shows_form s = true
      <-> truthy (params_get params "error_description") = false
          /\ truthy (params_get params "access_token") = true
          /\ truthy (params_get params "refresh_token") = true)
  /\ (shows_form s = true ->
      accessToken s = params_get params "access_token"
      /\ refreshToken s = params_get params "refresh_token")
  /\ (forall description,
        params_get params "error_description" = Some description ->
        description <> EmptyString ->
        error s = Some (plus_to_space description)
        /\ accessToken s = None /\ refreshToken s = None
        /\ String.length (plus_to_space description) = String.length description
        /\ ~ In "+"%char (list_ascii_of_string (plus_to_space description))).
Proof.
  intros params s. subst s. unfold verify_link. fold params.
  destruct (params_get params "error_description") as [description|] eqn:Hd.
  - change (truthy (Some description)) with (truthy description).
    destruct (truthy description) eqn:Ht.
    + unfold shows_form. cbn [setIsVerifying setError isVerifying error message
                                accessToken refreshToken initial fmap option_fmap option_map].
      change (truthy (Some (plus_to_space description)))
        with (truthy (plus_to_space description)).
      rewrite plus_to_space_truthy, Ht.
      split_and!; [done | split; [done | by intros [? _]] | done |].
      intros d [= <-] _. split_and!; try done.
      * apply plus_to_space_length.
      * apply plus_to_space_no_plus.
    + assert (Hempty : description = EmptyString) by (by destruct description).
      destruct (truthy (params_get params "access_token")) eqn:Ha;
        destruct (truthy (params_get params "refresh_token")) eqn:Hr;
        cbn [andb]; unfold shows_form; cbn;
        (split_and!;
         [ done
         | split; [intros ?; try done | intros (_ & ? & ?); done]
         | intros ?; try done
         | intros d [= <-] Hne; done ]).
  - change (truthy (@None string)) with false. cbn iota.
    destruct (truthy (params_get params "access_token")) eqn:Ha;
      destruct (truthy (params_get params "refresh_token")) eqn:Hr;
      cbn [andb]; unfold shows_form; cbn;
      (split_and!;
       [ done
       | split; [intros ?; try done | intros (_ & ? & ?); done]
       | intros ?; try done
       | intros d ?; done ]).
Qed.

(** X18. A new password is checked before anything is sent.  Fields that
    differ stop the handler with ['Passwords do not match.'], whatever the
    tokens; equal fields without both tokens stop it with the text about the
    missing token.  In both cases nothing is called and nothing is asked of
    the browser. *)
Theorem reset_is_checked_before_any_call s n :
  let run := run_handler (handleResetPassword transport env engine_message s) s n in
  (password s <> confirmPassword s ->
   run = (Normal tt,
          {| page := setError (Some "Passwords do not match.")
                       (setMessage None (setError None s));
             world := {| net := n; trace := [] |}; browser := [] |}))
  /\ (password s = confirmPassword s ->
      truthy (accessToken s) = false \/ truthy (refreshToken s) = false ->
      run = (Normal tt,
             {| page := setError
                          (Some "No reset token found. Please use the link from your email.")
                          (setMessage None (setError None s));
                world := {| net := n; trace := [] |}; browser := [] |})).
Proof.
  intros run. subst run. unfold run_handler, handleResetPassword, mbind, Page_bind, set_state.
  cbn [page world browser]. split.
  - intros Hne. apply String.eqb_neq in Hne. by rewrite Hne.
  - intros Heq Htokens. apply String.eqb_eq in Heq. rewrite Heq. cbn [negb].
    apply tokens_found_none in Htokens. by rewrite Htokens.
Qed.

Lemma reset_run s n access refresh :
  password s = confirmPassword s ->
  accessToken s = Some access -> refreshToken s = Some refresh ->
  truthy access = true -> truthy refresh = true ->
  run_handler (handleResetPassword transport env engine_message s) s n =
    let rq := post_json env "/auth/reset-password"
                [("access_token", Some access); ("refresh_token", Some refresh);
                 ("new_password", Some (password s))] in
    let cleared := setMessage None (setError None s) in
    let ends (p : State) (asked : list BrowserEvent) : Completion unit * @Client Net State :=
      (Normal tt, {| page := p;
                     world := {| net := (transport rq n).2; trace := [Fetched rq] |};
                     browser := asked |}) in
    let fails (e : Exn) :=
      ends (setError (Some (error_message engine_message e)) cleared) [] in
    match answer_of "Failed to reset password." (transport rq n).1 with
    | Throw e => fails e
    | Normal data =>
        match get_property data "message" with
        | Throw e => fails e
        | Normal text =>
            ends (setMessage
                    (Some (or_else text
                             (JString "Password has been reset successfully. You can now log in with your new password.")))
                    cleared)
                 [PushAfter 3000 "/auth"]
        end
    end.
Proof.
  intros Heq Ha Hr Hta Htr.
  unfold run_handler, handleResetPassword, mbind, Page_bind, set_state.
  cbn [page world browser]. apply String.eqb_eq in Heq. rewrite Heq. cbn [negb].
  unfold tokens_found. rewrite Ha, Hr, Hta, Htr. cbn [negb orb].
  unfold page_try_catch, mbind, Page_bind, await, fetch, set_state, throw_unless_ok,
    answer_of.
  cbn [page world browser net trace].
  destruct (transport _ n) as [[r | reason] n']; cbn [fst snd]; [| reflexivity].
  unfold json. destruct (json_result r) as [data|]; cbn; [| reflexivity].
  destruct (ok r); cbn.
  - unfold page_lift, ask_browser. destruct (get_property data "message"); reflexivity.
  - unfold page_lift, mbind, Page_bind. cbn.
    destruct (get_property data "detail"); reflexivity.
Qed.

(** X19. With equal fields and both tokens the handler makes exactly one
    call, a POST to [/auth/reset-password] whose body reads back as the two
    tokens and the new password, and throws nothing.  After an answer with a
    status in 200-299 and a JSON body other than [null], it shows the body's
    [message] when that is truthy and the stock text otherwise, so the
    message shown is never empty, and starts the timer that leads to
    ['/auth'] after 3000 ms.  After an answer in 200-299 whose body is
    [null], the reading of [message] throws and the error is set.  In every
    case other than the first it sets the error and starts no timer. *)
Theorem reset_call_and_outcomes s n access refresh :
  password s = confirmPassword s ->
  accessToken s = Some access -> refreshToken s = Some refresh ->
  truthy access = true -> truthy refresh = true ->
  let rq := post_json env "/auth/reset-password"
              [("access_token", Some access); ("refresh_token", Some refresh);
               ("new_password", Some (password s))] in
  let run := run_handler (handleResetPassword transport env engine_message s) s n in
  let cleared := setMessage None (setError None s) in
  let stock :=
    JString "Password has been reset successfully. You can now log in with your new password." in
  run.1 = Normal tt
  /\ trace (world run.2) = [Fetched rq]
  /\ JSON_read_object (body rq)
     = Some [("access_token", access); ("refresh_token", refresh);
             ("new_password", password s)]
  /\ (forall r data,
        (transport rq n).1 = Resolves r -> ok r = true -> json_result r = Some data ->
        data <> JNull ->
        exists text,
          get_property data "message" = Normal text
          /\ page run.2 = setMessage (Some (or_else text stock)) cleared
          /\ truthy (or_else text stock) = true
          /\ browser run.2 = [PushAfter 3000 "/auth"])
  /\ (forall r,
        (transport rq n).1 = Resolves r -> ok r = true -> json_result r = Some JNull ->
        page run.2
        = setError (Some (error_message engine_message (NullProperty "message"))) cleared
        /\ browser run.2 = [])
  /\ (~ (exists r data,
           (transport rq n).1 = Resolves r /\ ok r = true /\ json_result r = Some data
           /\ data <> JNull) ->
      (exists text, page run.2 = setError (Some text) cleared)
      /\ browser run.2 = []).
Proof.
  intros Heq Ha Hr Hta Htr rq run cleared stock. subst run.
  rewrite (reset_run s n access refresh Heq Ha Hr Hta Htr).
  cbn zeta. fold rq. fold cleared. fold stock. unfold answer_of.
  assert (Hsent : JSON_read_object (body rq)
                  = Some [("access_token", access); ("refresh_token", refresh);
                          ("new_password", password s)])
    by apply JSON_stringify_round_trip_members.
  destruct (transport rq n).1 as [r | reason] eqn:Hcall;
    [| split_and!; [done | done | done | done | done | by (intros _; eauto)]].
  destruct (json_result r) as [data|] eqn:Hbody;
    [| split_and!;
       [done | done | done | by (intros ?? [= <-]; congruence)
       | by (intros ? [= <-]; congruence) | by (intros _; eauto)]].
  destruct (ok r) eqn:Hok;
    [| destruct (get_property data "detail");
       (split_and!;
        [done | done | done | by (intros ?? [= <-]; congruence)
        | by (intros ? [= <-]; congruence) | by (intros _; eauto)])].
  destruct (get_property data "message") as [text | e] eqn:Hmessage.
  - assert (Hdata : data <> JNull) by (by intros ->).
    split_and!; [done | done | done | | | ].
    + intros r0 data0 [= <-] _ Hdata0 _.
      assert (data0 = data) as -> by congruence.
      exists text. split_and!; [done | done | by apply or_else_truthy | done].
    + intros r0 [= <-] _ Hnull. congruence.
    + intros Hnone. destruct Hnone. by exists r, data.
  - assert (data = JNull /\ e = NullProperty "message") as [-> ->]
      by (destruct data; by simplify_eq/=).
    split_and!; [done | done | done | | done | by (intros _; eauto)].
    intros r0 data0 [= <-] _ Hdata0 Hnot. congruence.
Qed.

(** X20. From the link to the call: when the page opened from a fragment
    shows the form and the same new password is typed into both fields, the
    one call made on submitting carries the two tokens of the fragment and
    that password. *)
Theorem reset_sends_the_tokens_of_the_link hash typed n :
  let params := URLSearchParams (substring_1 hash) in
  let opened := verify_link URLSearchParams hash initial in
  let filled := setConfirmPassword typed (setPassword typed opened) in
  shows_form opened = true ->
  fetch_calls
    (trace (world (run_handler
                     (handleResetPassword transport env engine_message filled)
                     filled n).2))
    = [post_json env "/auth/reset-password"
         [("access_token", params_get params "access_token");
          ("refresh_token", params_get params "refresh_token");
          ("new_password", Some typed)]].
Proof.
  intros params opened filled Hform.
  assert (Hopen : truthy (params_get params "error_description") = false
                  /\ truthy (params_get params "access_token") = true
                  /\ truthy (params_get params "refresh_token") = true).
  { subst opened. unfold verify_link in Hform. fold params in Hform.
    destruct (truthy (params_get params "error_description")) eqn:Hd.
    - unfold shows_form in Hform. cbn in Hform.
      destruct (params_get params "error_description") as [d|]; [|done].
      cbn in Hform, Hd.
      change (truthy (Some (plus_to_space d))) with (truthy (plus_to_space d)) in Hform.
      rewrite plus_to_space_truthy, Hd in Hform. done.
    - destruct (truthy (params_get params "access_token")),
        (truthy (params_get params "refresh_token")); done. }
  destruct Hopen as (Hd & Ha & Hr).
  destruct (params_get params "access_token") as [access|] eqn:Haccess; [|done].
  destruct (params_get params "refresh_token") as [refresh|] eqn:Hrefresh; [|done].
  assert (Hfilled : filled
                    = {| accessToken := Some access; refreshToken := Some refresh;
                         password := typed; confirmPassword := typed; error := None;
                         message := None; isVerifying := false |}).
  { subst filled opened. unfold verify_link. fold params.
    by rewrite Hd, Haccess, Hrefresh, Ha, Hr. }
  rewrite Hfilled.
  unfold run_handler, handleResetPassword, mbind, Page_bind, set_state.
  cbn [page world browser password confirmPassword].
  rewrite String.eqb_refl. cbn [negb].
  unfold tokens_found. cbn [accessToken refreshToken].
  cbn in Ha, Hr. rewrite Ha, Hr. cbn [negb orb].
  unfold page_try_catch, mbind, Page_bind, await, fetch, set_state, throw_unless_ok.
  cbn [page world browser net trace].
  destruct (transport _ n) as [[r | reason] n']; cbn [fst snd]; [|done].
  unfold json. destruct (json_result r) as [data|]; cbn; [|done].
  destruct (ok r); cbn.
  - by destruct data.
  - unfold page_lift, mbind, Page_bind. cbn. by destruct (get_property data "detail").
Qed.

End Facts.

End ResetPasswordPageFacts.

(** ** The home page: who is greeted *)

Module HomePageFacts.

Import HomePage.

Section Facts.

Context {Net : Type}.
Variable transport : FetchRequest -> Net -> FetchOutcome * Net.
Variable env : gmap string string.

Lemma fetchUser_run (bearer : string) (userName : JsValue) n :
  truthy bearer = true ->
  run_handler (fetchUser transport env (Some bearer)) userName n =
    let rq := user_request env bearer in
    let after := (transport rq n).2 in
    let ends (shown : JsValue) (t : list Event) : Completion unit * @Client Net JsValue :=
      (Normal tt, {| page := shown; world := {| net := after; trace := t |};
                     browser := [] |}) in
    let logs (e : Exn) := [Fetched rq; ConsoleError "Failed to fetch user:" e] in
    match (transport rq n).1 with
    | Rejects reason => ends userName (logs (FetchFailed reason))
    | Resolves r =>
        if ok r then
          match json_result r with
          | None => ends userName (logs BodyNotJson)
          | Some data =>
              match get_property data "first_name" with
              | Throw e => ends userName (logs e)
              | Normal first_name =>
                  if truthy first_name then ends first_name [Fetched rq]
                  else
                    match get_property data "username" with
                    | Normal username => ends username [Fetched rq]
                    | Throw e => ends userName (logs e)
                    end
              end
          end
        else ends userName [Fetched rq]
    end.
Proof.
  intros Ht. unfold run_handler, fetchUser.
  change (truthy (Some bearer)) with (truthy bearer). rewrite Ht.
  unfold page_try_catch, mbind, Page_bind, await, fetch, set_state, console_error.
  cbn [page world browser net trace].
  destruct (transport (user_request env bearer) n) as [[r | reason] n']; cbn [fst snd];
    [| reflexivity].
  destruct (ok r); [| reflexivity].
  unfold json. destruct (json_result r) as [data|]; [| reflexivity].
  cbn. unfold page_lift.
  destruct (get_property data "first_name") as [first_name | e]; [| reflexivity].
  destruct (truthy first_name); [reflexivity |].
  by destruct (get_property data "username").
Qed.

(** X21. Looking up the user throws nothing, writes no cookie and never
    navigates.  Without a (non-empty) [access_token] cookie nothing is
    called and the name stays as it was.  With one, exactly one call is made,
    a GET of [/users/me] with the header [Authorization: Bearer <token>]; the
    name changes only after an answer in 200-299 with a JSON body; an answer
    outside 200-299 is passed over in silence, and a call that could not be
    made is logged, the name staying as it was. *)
Theorem fetchUser_outcomes (token : option string) (userName : JsValue) n :
  let run := run_handler (fetchUser transport env token) userName n in
  (truthy token = false ->
   run = (Normal tt,
          {| page := userName; world := {| net := n; trace := [] |}; browser := [] |}))
  /\ (forall bearer,
        token = Some bearer -> truthy bearer = true ->
        let rq := {| fetch_url := template (env !! "NEXT_PUBLIC_API_URL") +:+ "/users/me";
                     method := "GET";
                     headers := [("Authorization", "Bearer " +:+ bearer)];
                     body := EmptyString |} in
        let after := (transport rq n).2 in
        run.1 = Normal tt
        /\ browser run.2 = []
        /\ fetch_calls (trace (world run.2)) = [rq]
        /\ (page run.2 <> userName ->
            exists r data,
              (transport rq n).1 = Resolves r /\ ok r = true /\ json_result r = Some data)
        /\ (forall r,
              (transport rq n).1 = Resolves r -> ok r = false ->
              run.2 = {| page := userName;
                         world := {| net := after; trace := [Fetched rq] |};
                         browser := [] |})
        /\ (forall reason,
              (transport rq n).1 = Rejects reason ->
              run.2 = {| page := userName;
                         world :=
                           {| net := after;
                              trace := [Fetched rq;
                                        ConsoleError "Failed to fetch user:"
                                          (FetchFailed reason)] |};
                         browser := [] |})).
Proof.
  intros run. subst run. split.
  - unfold run_handler, fetchUser. destruct token as [bearer|]; [| done].
    change (truthy (Some bearer)) with (truthy bearer). by intros ->.
  - intros bearer -> Ht rq after. rewrite fetchUser_run by done. cbn zeta.
    change (user_request env bearer) with rq. fold after.
    destruct (transport rq n).1 as [r | reason] eqn:Hcall;
      [destruct (ok r) eqn:Hok;
       [destruct (json_result r) as [data|] eqn:Hbody;
        [destruct (get_property data "first_name") as [first_name | e];
         [destruct (truthy first_name);
          [| destruct (get_property data "username")] |] |] |] |];
      (split_and!;
       first [ done
             | by intros []
             | by (intros _; eauto)
             | by (intros; simplify_eq; congruence)
             | by (intros; simplify_eq) ]).
Qed.

(** X22. The name greeted after an answer in 200-299 with an object body is
    the body's [first_name] when that is truthy and its [username]
    otherwise, so an empty first name falls back to the user name; a body
    with neither leaves the name [undefined]. *)
Theorem fetchUser_prefers_first_name (bearer : string) (userName : JsValue) n r members :
  truthy bearer = true ->
  (transport (user_request env bearer) n).1 = Resolves r ->
  ok r = true ->
  json_result r = Some (JObject members) ->
  page (run_handler (fetchUser transport env (Some bearer)) userName n).2
    = match own_property members "first_name" with
      | Some first_name =>
          if truthy first_name then Some first_name
          else own_property members "username"
      | None => own_property members "username"
      end.
Proof.
  intros Ht Hcall Hok Hbody. rewrite fetchUser_run by done. cbn zeta.
  rewrite Hcall, Hok, Hbody. cbn [get_property].
  destruct (own_property members "first_name") as [first_name|]; [| done].
  change (truthy (Some first_name)) with (truthy first_name).
  by destruct (truthy first_name).
Qed.

End Facts.

End HomePageFacts.

(** ** The further statements at sample inputs *)

Lemma null_body_is_a_failed_renewal_witness :
  let service := counting_service (reply 401 JNull) in
  invoke service sample_env request_to_renew 0%nat
    = (Normal {| disposition :=
                   RedirectTo {| origin := blog; pathname := "/auth";
                                 searchParams := [("next", "/account/settings")];
                                 hash := EmptyString |} 307;
                 res_cookies := ∅ |},
       {| net := 1%nat;
          trace := [Fetched (renewal_request sample_env (Some "R1"));
                    ConsoleError "Token refresh failed:" (NullProperty "detail")] |}).
Proof.
  intros service.
  apply (null_body_is_a_failed_renewal service sample_env request_to_renew 0%nat
           {| status := 401; json_result := Some JNull |}); evaluate.
Defined.


Lemma renewed_cookie_is_unchecked_witness :
  let data := JObject [("access_token", JString "T1"); ("access_token", JBool false)] in
  let service := constant_service (reply 200 data) in
  let textless := JArray [JNumber (S754_finite false 1 0); JObject [("toString", JNull)]] in
  let broken := constant_service (reply 200 (JObject [("access_token", textless)])) in
  (invoke service sample_env request_to_renew tt).1
    = Normal {| disposition := PassThrough;
                res_cookies :=
                  {[ "access_token" :=
                       {| value := Some (JBool false); path := Some "/"; domain := None;
                          secure := Some true; httpOnly := None;
                          sameSite := Some Strict; maxAge := None |} ]} |}
  /\ invoke broken sample_env request_to_renew tt
     = (Normal {| disposition :=
                    RedirectTo {| origin := blog; pathname := "/auth";
                                  searchParams := [("next", "/account/settings")];
                                  hash := EmptyString |} 307;
                  res_cookies := ∅ |},
        {| net := tt;
           trace := [Fetched (renewal_request sample_env (Some "R1"));
                     ConsoleError "Token refresh failed:" NoPrimitive] |}).
Proof.
  intros data service textless broken. split.
  - destruct (renewed_cookie_is_unchecked service sample_env request_to_renew tt
                {| status := 200; json_result := Some data |}
                [("access_token", JString "T1"); ("access_token", JBool false)]
                (JBool false)) as (_ & Hwritten & _);
      [evaluate | evaluate | evaluate | evaluate | evaluate | evaluate |].
    apply Hwritten. evaluate.
  - destruct (renewed_cookie_is_unchecked broken sample_env request_to_renew tt
                {| status := 200; json_result := Some (JObject [("access_token", textless)]) |}
                [("access_token", textless)] textless) as (_ & _ & Hthrown);
      [evaluate | evaluate | evaluate | evaluate | evaluate | evaluate |].
    apply (Hthrown NoPrimitive). evaluate.
Defined.

Lemma guard_ignores_query_and_hash_witness :
  let service := counting_service (reply 200 (token_body "T1")) in
  let other :=
    {| url := {| origin := blog; pathname := "/account/settings";
                 searchParams := [("next", "/elsewhere")]; hash := "top" |};
       nextUrl := {| origin := blog; pathname := "/account/settings";
                     searchParams := []; hash := "top" |};
       req_cookies := ∅ |} in
  invoke service sample_env request_bare 0%nat = invoke service sample_env other 0%nat.
Proof.
  intros service other.
  apply (guard_ignores_query_and_hash service sample_env request_bare other 0%nat);
    evaluate.
Defined.

Lemma unset_api_url_is_called_as_undefined_witness :
  fetch_url <$> fetch_calls
                  (trace (invoke (constant_service (Rejects "Invalid URL")) ∅
                            request_to_renew tt).2)
    = ["undefined/auth/refresh"].
Proof.
  apply (unset_api_url_is_called_as_undefined (constant_service (Rejects "Invalid URL")) ∅
           request_to_renew tt); evaluate.
Defined.

Lemma renewal_body_determines_token_witness :
  body (renewal_request sample_env (Some "R1"))
    <> body (renewal_request sample_env (Some (String quote "R1"))).
Proof.
  apply (renewal_body_determines_token sample_env "R1" (String quote "R1")).
  discriminate.
Defined.

Lemma typewriter_shows_a_prefix_witness :
  shows_prefix sample_texts (typing 0 [72%nat])
  /\ tick sample_texts (typing 0 [72%nat]) <> TickThrows.
Proof.
  apply (typewriter_shows_a_prefix sample_texts (typing 0 [72%nat])).
  - discriminate.
  - apply (reaches_tick sample_texts typewriter_start (typing 0 [72%nat]) false).
    + apply reaches_start.
    + evaluate.
Defined.

Lemma typewriter_throws_without_text_witness :
  tick sample_texts (typing 2 [79%nat]) = TickThrows.
Proof.
  apply (typewriter_throws_without_text sample_texts (typing 2 [79%nat])); evaluate.
Defined.

Lemma typing_spells_the_text_witness :
  ticks sample_texts 3 (typing 1 []) = Some (typing 1 [79; 75; 33]%nat)
  /\ tick sample_texts (typing 1 [79; 75; 33]%nat) = Ticked (typing 1 [79; 75; 33]%nat) true
  /\ tick sample_texts (typing 1 [79; 75]%nat) = Ticked (typing 1 [79; 75; 33]%nat) false.
Proof.
  destruct (typing_spells_the_text sample_texts 1 [79; 75; 33]%nat)
    as (Hspelt & Hpause & Hstep); [evaluate |].
  split_and!; [exact Hspelt | exact Hpause |].
  apply (Hstep 2%nat). cbn. lia.
Defined.

Lemma deleting_moves_to_the_next_text_witness :
  ticks sample_texts 4 (pause_elapsed (typing 1 [79; 75; 33]%nat)) = Some (typing 0 []).
Proof.
  apply (deleting_moves_to_the_next_text sample_texts 1 [79; 75; 33]%nat). evaluate.
Defined.

Lemma login_error_text_witness :
  let rejected := counting_service (reply 401 (JObject [("detail", JString "Wrong password")])) in
  let offline := counting_service (Rejects "Failed to fetch") in
  let bare := counting_service (reply 500 (JObject [])) in
  let shown service :=
    AuthPage.error
      (page (run_handler
               (AuthPage.handleLogin service sample_env sample_engine_message sample_account)
               sample_account 0%nat).2) in
  shown rejected = Some "Wrong password"
  /\ shown offline = Some "Failed to fetch"
  /\ shown bare = Some "Login failed".
Proof.
  intros rejected offline bare shown. split_and!.
  - destruct (AuthPageFacts.login_error_text rejected sample_env sample_engine_message
                sample_account 0%nat) as [_ Hanswer].
    destruct (Hanswer {| status := 401;
                         json_result := Some (JObject [("detail", JString "Wrong password")]) |}
                [("detail", JString "Wrong password")]) as [Hdetail _];
      [evaluate | evaluate | evaluate |].
    apply Hdetail; [evaluate | discriminate].
  - destruct (AuthPageFacts.login_error_text offline sample_env sample_engine_message
                sample_account 0%nat) as [Hreason _].
    apply Hreason. evaluate.
  - destruct (AuthPageFacts.login_error_text bare sample_env sample_engine_message
                sample_account 0%nat) as [_ Hanswer].
    destruct (Hanswer {| status := 500; json_result := Some (JObject []) |} [])
      as [_ Hfallback]; [evaluate | evaluate | evaluate |].
    apply Hfallback. evaluate.
Defined.

Lemma forgot_password_shows_the_message_or_nothing_witness :
  let service := counting_service (reply 200 (JObject [])) in
  let run := run_handler
               (AuthPage.handleForgotPassword service sample_env sample_engine_message
                  sample_account)
               sample_account 0%nat in
  AuthPage.message (page run.2) = None
  /\ AuthPage.error (page run.2) = None
  /\ browser run.2 = [].
Proof.
  intros service.
  apply (AuthPageFacts.forgot_password_shows_the_message_or_nothing service sample_env
           sample_engine_message sample_account 0%nat
           {| status := 200; json_result := Some (JObject []) |} []); evaluate.
Defined.

Lemma verify_link_outcome_witness :
  let good := ResetPasswordPage.verify_link sample_URLSearchParams
                "#access_token=A1&refresh_token=R1" ResetPasswordPage.initial in
  let bad := ResetPasswordPage.verify_link sample_URLSearchParams
               "#error_description=Link%2Bhas+expired&access_token=A1&refresh_token=R1"
               ResetPasswordPage.initial in
  ResetPasswordPage.shows_form good = true
  /\ ResetPasswordPage.accessToken good = Some "A1"
  /\ ResetPasswordPage.refreshToken good = Some "R1"
  /\ ResetPasswordPage.error bad = Some "Link has expired"
  /\ ResetPasswordPage.accessToken bad = None
  /\ ResetPasswordPage.shows_form bad = false.
Proof.
  intros good bad.
  destruct (ResetPasswordPageFacts.verify_link_outcome sample_URLSearchParams
              "#access_token=A1&refresh_token=R1") as (_ & Hform & Htokens & _).
  destruct (ResetPasswordPageFacts.verify_link_outcome sample_URLSearchParams
              "#error_description=Link%2Bhas+expired&access_token=A1&refresh_token=R1")
    as (_ & _ & _ & Hdescription).
  assert (Hshown : ResetPasswordPage.shows_form good = true)
    by (apply Hform; split_and!; evaluate).
  destruct (Htokens Hshown) as [Haccess Hrefresh].
  destruct (Hdescription "Link+has expired") as (Herror & Hnone & _);
    [evaluate | discriminate |].
  split_and!; [exact Hshown | exact Haccess | exact Hrefresh | exact Herror
              | exact Hnone | evaluate].
Defined.

Lemma reset_is_checked_before_any_call_witness :
  let service := counting_service (reply 200 (JObject [])) in
  let run s :=
    run_handler
      (ResetPasswordPage.handleResetPassword service sample_env sample_engine_message s)
      s 0%nat in
  ResetPasswordPage.error (page (run (sample_reset "one" "two" None None)).2)
    = Some "Passwords do not match."
  /\ world (run (sample_reset "one" "two" None None)).2 = {| net := 0%nat; trace := [] |}
  /\ ResetPasswordPage.error
       (page (run (sample_reset "one" "one" (Some "A1") (Some EmptyString))).2)
     = Some "No reset token found. Please use the link from your email."
  /\ world (run (sample_reset "one" "one" (Some "A1") (Some EmptyString))).2
     = {| net := 0%nat; trace := [] |}.
Proof.
  intros service run.
  destruct (ResetPasswordPageFacts.reset_is_checked_before_any_call service sample_env
              sample_engine_message (sample_reset "one" "two" None None) 0%nat)
    as [Hdiffer _].
  destruct (ResetPasswordPageFacts.reset_is_checked_before_any_call service sample_env
              sample_engine_message
              (sample_reset "one" "one" (Some "A1") (Some EmptyString)) 0%nat)
    as [_ Htokens].
  unfold run. rewrite Hdiffer by discriminate.
  rewrite Htokens by (evaluate || (right; evaluate)).
  split_and!; reflexivity.
Defined.

Lemma reset_call_and_outcomes_witness :
  let service := counting_service (reply 200 (JObject [("message", JString "Done")])) in
  let s := sample_reset "new pass" "new pass" (Some "A1") (Some "R1") in
  let run :=
    run_handler
      (ResetPasswordPage.handleResetPassword service sample_env sample_engine_message s)
      s 0%nat in
  fetch_url <$> fetch_calls (trace (world run.2))
    = ["https://api.example.com/auth/reset-password"]
  /\ JSON_read_object
       (body (post_json sample_env "/auth/reset-password"
                [("access_token", Some "A1"); ("refresh_token", Some "R1");
                 ("new_password", Some "new pass")]))
     = Some [("access_token", "A1"); ("refresh_token", "R1"); ("new_password", "new pass")]
  /\ browser run.2 = [PushAfter 3000 "/auth"]
  /\ ResetPasswordPage.message (page run.2) = Some (JString "Done").
Proof.
  intros service s run.
  destruct (ResetPasswordPageFacts.reset_call_and_outcomes service sample_env
              sample_engine_message s 0%nat "A1" "R1")
    as (_ & Hcall & Hbody & Hsuccess & _);
    [evaluate | evaluate | evaluate | evaluate | evaluate |].
  destruct (Hsuccess {| status := 200;
                        json_result := Some (JObject [("message", JString "Done")]) |}
              (JObject [("message", JString "Done")]))
    as (text & Htext & Hpage & _ & Htimer); [evaluate | evaluate | evaluate | discriminate |].
  split_and!; [subst run; rewrite Hcall; evaluate | exact Hbody | exact Htimer |].
  subst run. rewrite Hpage. injection Htext as <-. evaluate.
Defined.

Lemma login_outcomes_witness :
  let tokens (refresh : string) :=
    JObject [("access_token", JString "A1"); ("refresh_token", JString refresh)] in
  let run (refresh : string) :=
    run_handler
      (AuthPage.handleLogin (counting_service (reply 200 (tokens refresh))) sample_env
         sample_engine_message sample_account)
      sample_account 0%nat in
  let jar (v : string) (days : Z) :=
    {| jar_value := Some (JString v); jar_expires := Some days;
       jar_secure := Some true; jar_sameSite := Some Strict |} in
  (browser (run "R1").2
   = [CookiesSet "access_token" (jar "A1" 1); CookiesSet "refresh_token" (jar "R1" 7);
      RouterPush "/"]
   /\ AuthPage.error (page (run "R1").2) = None)
  /\ (browser (run lone_D800).2 = [CookiesSet "access_token" (jar "A1" 1)]
      /\ AuthPage.error (page (run lone_D800).2) = Some "TypeError").
Proof.
  intros tokens run jar. split.
  - destruct (AuthPageFacts.login_outcomes (counting_service (reply 200 (tokens "R1")))
                sample_env sample_engine_message sample_account 0%nat)
      as (_ & _ & Hwritten & _).
    destruct (Hwritten {| status := 200; json_result := Some (tokens "R1") |} (tokens "R1")
                (Some (JString "A1")) (Some (JString "R1")))
      as [Hboth _]; [evaluate | evaluate | evaluate | evaluate | evaluate | evaluate |].
    destruct Hboth as [Hbrowser Hpage]; [evaluate |].
    split; [exact Hbrowser |]. subst run. cbn beta. rewrite Hpage. evaluate.
  - destruct (AuthPageFacts.login_outcomes
                (counting_service (reply 200 (tokens lone_D800)))
                sample_env sample_engine_message sample_account 0%nat)
      as (_ & _ & Hwritten & _).
    destruct (Hwritten {| status := 200; json_result := Some (tokens lone_D800) |}
                (tokens lone_D800) (Some (JString "A1")) (Some (JString lone_D800)))
      as [_ Hone]; [evaluate | evaluate | evaluate | evaluate | evaluate | evaluate |].
    destruct (Hone MalformedURI) as [Hbrowser Hpage]; [evaluate |].
    split; [exact Hbrowser |]. subst run. cbn beta. rewrite Hpage. evaluate.
Defined.

Lemma register_outcomes_witness :
  let run (data : Json) :=
    run_handler
      (AuthPage.handleRegister (counting_service (reply 201 data)) sample_env
         sample_engine_message sample_account)
      sample_account 0%nat in
  (AuthPage.message (page (run (JObject [])).2)
   = Some (JString "Registration successful. Please check your email to verify your account.")
   /\ AuthPage.isLogin (page (run (JObject [])).2) = true
   /\ AuthPage.error (page (run (JObject [])).2) = None)
  /\ (AuthPage.message (page (run JNull).2) = None
      /\ AuthPage.isLogin (page (run JNull).2) = false
      /\ AuthPage.error (page (run JNull).2) = Some "TypeError").
Proof.
  intros run. split.
  - destruct (AuthPageFacts.register_outcomes (counting_service (reply 201 (JObject [])))
                sample_env sample_engine_message sample_account 0%nat)
      as (_ & _ & _ & Hsuccess & _).
    destruct (Hsuccess {| status := 201; json_result := Some (JObject []) |} (JObject []))
      as (text & Htext & Hpage & _); [evaluate | evaluate | evaluate | discriminate |].
    injection Htext as <-. subst run. cbn beta. rewrite Hpage. split_and!; evaluate.
  - destruct (AuthPageFacts.register_outcomes (counting_service (reply 201 JNull))
                sample_env sample_engine_message sample_account 0%nat)
      as (_ & _ & _ & _ & Hnull & _).
    subst run. cbn beta.
    rewrite (Hnull {| status := 201; json_result := Some JNull |});
      [split_and!; evaluate | evaluate | evaluate | evaluate].
Defined.

Lemma reset_sends_the_tokens_of_the_link_witness :
  let opened := ResetPasswordPage.verify_link sample_URLSearchParams
                  "#access_token=A1&refresh_token=R1" ResetPasswordPage.initial in
  let filled := ResetPasswordPage.setConfirmPassword "new pass"
                  (ResetPasswordPage.setPassword "new pass" opened) in
  fetch_calls
    (trace (world (run_handler
                     (ResetPasswordPage.handleResetPassword
                        (counting_service (reply 200 (JObject []))) sample_env
                        sample_engine_message filled)
                     filled 0%nat).2))
    = [post_json sample_env "/auth/reset-password"
         [("access_token", Some "A1"); ("refresh_token", Some "R1");
          ("new_password", Some "new pass")]].
Proof.
  intros opened filled.
  apply (ResetPasswordPageFacts.reset_sends_the_tokens_of_the_link
           (counting_service (reply 200 (JObject []))) sample_env sample_engine_message
           sample_URLSearchParams "#access_token=A1&refresh_token=R1" "new pass" 0%nat).
  evaluate.
Defined.

Lemma fetchUser_outcomes_witness :
  let denied := counting_service (reply 401 (JObject [("detail", JString "Expired")])) in
  let offline := counting_service (Rejects "Failed to fetch") in
  run_handler (HomePage.fetchUser denied sample_env (Some EmptyString)) None 0%nat
    = (Normal tt, {| page := None; world := {| net := 0%nat; trace := [] |}; browser := [] |})
  /\ (run_handler (HomePage.fetchUser denied sample_env (Some "A1")) None 0%nat).2
     = {| page := None;
          world := {| net := 1%nat;
                      trace := [Fetched (HomePage.user_request sample_env "A1")] |};
          browser := [] |}
  /\ (run_handler (HomePage.fetchUser offline sample_env (Some "A1")) None 0%nat).2
     = {| page := None;
          world := {| net := 1%nat;
                      trace := [Fetched (HomePage.user_request sample_env "A1");
                                ConsoleError "Failed to fetch user:"
                                  (FetchFailed "Failed to fetch")] |};
          browser := [] |}.
Proof.
  intros denied offline. split_and!.
  - apply (HomePageFacts.fetchUser_outcomes denied sample_env (Some EmptyString) None 0%nat).
    evaluate.
  - destruct (HomePageFacts.fetchUser_outcomes denied sample_env (Some "A1") None 0%nat)
      as [_ Hcalled].
    destruct (Hcalled "A1") as (_ & _ & _ & _ & Hdenied & _); [evaluate | evaluate |].
    apply (Hdenied {| status := 401;
                      json_result := Some (JObject [("detail", JString "Expired")]) |});
      evaluate.
  - destruct (HomePageFacts.fetchUser_outcomes offline sample_env (Some "A1") None 0%nat)
      as [_ Hcalled].
    destruct (Hcalled "A1") as (_ & _ & _ & _ & _ & Hoffline); [evaluate | evaluate |].
    apply (Hoffline "Failed to fetch"). evaluate.
Defined.

Lemma fetchUser_prefers_first_name_witness :
  let data := JObject [("first_name", JString EmptyString); ("username", JString "ann")] in
  page (run_handler
          (HomePage.fetchUser (counting_service (reply 200 data)) sample_env (Some "A1"))
          None 0%nat).2
    = Some (JString "ann").
Proof.
  intros data.
  apply (HomePageFacts.fetchUser_prefers_first_name (counting_service (reply 200 data))
           sample_env "A1" None 0%nat {| status := 200; json_result := Some data |}
           [("first_name", JString EmptyString); ("username", JString "ann")]);
    evaluate.
Defined.
